(** * GMLAB ST4: the 4-port switchable MIDI thru box

    A shallow embedding of the Arduino sketch [GMLAB_ST4.ino] and proofs about
    its routing engine ("Note Memory"), its button poller and its USB mirror
    output.

    The sketch is a single-threaded polling loop over global variables.  Each
    [void] function of the sketch becomes a state transformer
    [State -> option State]; [None] stands for an out-of-bounds access to one
    of the fixed-size C arrays (undefined behaviour in the source).  The
    external libraries (MIDI, MIDIUSB, EEPROM, MillisTimer, the Arduino pin
    API) are not part of the sketch: a call into them is recorded in program
    order in the [trace] of the state, and what they deliver (the parsed MIDI
    message, pin readings, timer expiry) is an input of [loop]. *)

From stdpp Require Import base option list gmap.

Open Scope Z_scope.

(** ** C integer types of the ATmega32U4 (avr-gcc) *)

(** [byte] / [uint8_t] *)
Definition to_byte (z : Z) : Z := z mod 256.

(** [char], which is signed on avr-gcc *)
Definition to_char (z : Z) : Z := (z + 128) mod 256 - 128.

(** [int], 16 bits wide *)
Definition to_int (z : Z) : Z := (z + 32768) mod 65536 - 32768.

(** ** Pin definitions and other constants *)

Definition LOW : Z := 0.
Definition HIGH : Z := 1.

Definition PIN_LED0 : Z := 10.
Definition ButtonPins : list Z := [2; 3; 4; 5].
Definition ButtonLeds : list Z := [6; 7; 8; 9].
Definition MuxPins : list Z := [18; 19; 20; 21].

Definition MIDI_STATUS_NOTEOFF : Z := 0x80.
Definition MIDI_STATUS_NOTEON : Z := 0x90.
Definition MIDI_STATUS_AFTERTOUCH : Z := 0xA0.
Definition MIDI_STATUS_CONTROLCHANGE : Z := 0xB0.
Definition MIDI_STATUS_PROGRAMCHANGE : Z := 0xC0.
Definition MIDI_STATUS_CHANNELPRESSURE : Z := 0xD0.
Definition MIDI_STATUS_PITCHBEND : Z := 0xE0.

(** ** Data model *)

(** [struct NoteMemory { char Status, Port; }] *)
Record NoteMemory : Type := mkNoteMemory { Status : Z; Port : Z }.

Definition set_Status (v : Z) (e : NoteMemory) : NoteMemory :=
  {| Status := v; Port := Port e |}.
Definition set_Port (v : Z) (e : NoteMemory) : NoteMemory :=
  {| Status := Status e; Port := v |}.

(** [midiEventPacket_t] of the MIDIUSB library: four [uint8_t] *)
Record midiEventPacket_t : Type :=
  mkPacket { header : Z; byte1 : Z; byte2 : Z; byte3 : Z }.

(** The parsed message the MIDI library holds after [MIDI.read()] returned
    true: [getType()], [getChannel()] (1 to 16), [getData1()], [getData2()]. *)
Record MidiMessage : Type :=
  mkMsg { getType : Z; getChannel : Z; getData1 : Z; getData2 : Z }.

(** Calls on the serial MIDI output: [MIDI.sendNoteOn(note, velocity, channel)]
    and its siblings. *)
Inductive SerialMsg : Type :=
  | sendNoteOn (note velocity channel : Z)
  | sendNoteOff (note velocity channel : Z)
  | sendControlChange (number value channel : Z)
  | sendProgramChange (number channel : Z)
  | sendAfterTouch (pressure channel : Z)
  | sendPitchBend (value channel : Z).

(** Calls into the hardware and the libraries, in program order. *)
Inductive Effect : Type :=
  | PinMode (pin : Z) (output : bool)
  | DigitalWrite (pin val : Z)
  | DelayMicroseconds (us : Z)
  | EepromUpdate (addr val : Z)
  | MidiSerial (m : SerialMsg)
  | UsbSendMIDI (p : midiEventPacket_t)
  | UsbFlush.

(** The global variables of the sketch, and the part of the hardware the
    sketch drives: the level of each output pin, the EEPROM, whether the
    one-shot activity timer is running, and the calls made so far. *)
Record State : Type := mkState {
  ButtonStatus : list Z;
  PortStatus : Z;
  USBPort : Z;
  NoteMem : list NoteMemory;
  SustainPedal : list NoteMemory;
  pins : gmap Z Z;
  eeprom : gmap Z Z;
  ActivityTimer_running : bool;
  trace : list Effect
}.

Definition with_ButtonStatus (v : list Z) (s : State) : State :=
  mkState v (PortStatus s) (USBPort s) (NoteMem s) (SustainPedal s)
          (pins s) (eeprom s) (ActivityTimer_running s) (trace s).
Definition with_PortStatus (v : Z) (s : State) : State :=
  mkState (ButtonStatus s) v (USBPort s) (NoteMem s) (SustainPedal s)
          (pins s) (eeprom s) (ActivityTimer_running s) (trace s).
Definition with_USBPort (v : Z) (s : State) : State :=
  mkState (ButtonStatus s) (PortStatus s) v (NoteMem s) (SustainPedal s)
          (pins s) (eeprom s) (ActivityTimer_running s) (trace s).
Definition with_NoteMem (v : list NoteMemory) (s : State) : State :=
  mkState (ButtonStatus s) (PortStatus s) (USBPort s) v (SustainPedal s)
          (pins s) (eeprom s) (ActivityTimer_running s) (trace s).
Definition with_SustainPedal (v : list NoteMemory) (s : State) : State :=
  mkState (ButtonStatus s) (PortStatus s) (USBPort s) (NoteMem s) v
          (pins s) (eeprom s) (ActivityTimer_running s) (trace s).
Definition with_pins (v : gmap Z Z) (s : State) : State :=
  mkState (ButtonStatus s) (PortStatus s) (USBPort s) (NoteMem s)
          (SustainPedal s) v (eeprom s) (ActivityTimer_running s) (trace s).
Definition with_eeprom (v : gmap Z Z) (s : State) : State :=
  mkState (ButtonStatus s) (PortStatus s) (USBPort s) (NoteMem s)
          (SustainPedal s) (pins s) v (ActivityTimer_running s) (trace s).
Definition with_ActivityTimer (v : bool) (s : State) : State :=
  mkState (ButtonStatus s) (PortStatus s) (USBPort s) (NoteMem s)
          (SustainPedal s) (pins s) (eeprom s) v (trace s).
Definition with_trace (v : list Effect) (s : State) : State :=
  mkState (ButtonStatus s) (PortStatus s) (USBPort s) (NoteMem s)
          (SustainPedal s) (pins s) (eeprom s) (ActivityTimer_running s) v.

(** ** Procedures *)

Definition Proc : Type := State → option State.

Definition skip : Proc := Some.
Definition andThen (p q : Proc) : Proc := λ s, p s ≫= q.
Notation "p >> q" := (andThen p q) (at level 65, right associativity).

(** A C array read [a[i]]: defined inside the array only. *)
Definition arr_get {A : Type} (a : list A) (i : Z) : option A :=
  if 0 <=? i then a !! Z.to_nat i else None.

(** A C array write [a[i] = f(a[i])]. *)
Definition arr_upd {A : Type} (f : A → A) (a : list A) (i : Z)
  : option (list A) :=
  x ← arr_get a i; Some (<[Z.to_nat i := f x]> a).

(** [for (int i = lo; i < lo + n; i++) body(i);] *)
Fixpoint for_loop (n : nat) (i : Z) (body : Z → Proc) : Proc :=
  match n with
  | O => skip
  | S n' => body i >> for_loop n' (i + 1) body
  end.

Definition emit (e : Effect) : Proc :=
  λ s, Some (with_trace (trace s ++ [e]) s).

(** Arduino's [digitalWrite(pin, val)]: [LOW] clears the pin, anything else
    sets it. *)
Definition digitalWrite (pin val : Z) : Proc :=
  λ s, emit (DigitalWrite pin val)
         (with_pins (<[pin := if val =? LOW then LOW else HIGH]> (pins s)) s).

Definition delayMicroseconds (us : Z) : Proc := emit (DelayMicroseconds us).

Definition pinMode (pin : Z) (output : bool) : Proc := emit (PinMode pin output).

(** [EEPROM.update(addr, val)] with [val] converted to [uint8_t]. *)
Definition EEPROM_update (addr val : Z) : Proc :=
  λ s, emit (EepromUpdate addr (to_byte val))
         (with_eeprom (<[addr := to_byte val]> (eeprom s)) s).

(** [EEPROM.read(addr)]; an erased cell reads 0xFF. *)
Definition EEPROM_read (addr : Z) (s : State) : Z :=
  default 255 (eeprom s !! addr).

Definition MIDI_send (m : SerialMsg) : Proc := emit (MidiSerial m).

(** [UsbMidiSend(byte b1, byte b2, byte b3)] *)
Definition UsbMidiSend (b1 b2 b3 : Z) : Proc := λ s,
  let b1 := to_byte b1 in
  let b2 := to_byte b2 in
  let b3 := to_byte b3 in
  if USBPort s =? 0 then Some s
  else
    let Status := Z.land b1 0xF0 in
    let Channel := Z.land b1 0x0F in
    let Channel := to_byte (Channel - 1) in
    let Event := {| header := to_byte (Z.shiftr Status 4);
                    byte1 := to_byte (Z.lor Status Channel);
                    byte2 := b2;
                    byte3 := b3 |} in
    (emit (UsbSendMIDI Event) >> emit UsbFlush) s.

(** [SetPort(char port)] *)
Definition SetPort (port : Z) : Proc :=
  (λ s, Some (with_USBPort (to_char (Z.land port 1)) s)) >>
  for_loop 4 0 (λ i s,
    pin ← arr_get MuxPins i;
    digitalWrite pin (Z.land (Z.shiftr port i) 1) s) >>
  delayMicroseconds 10.

(** [SwitchPorts(char pin)] *)
Definition SwitchPorts (pin : Z) : Proc :=
  (λ s,
    if pin =? 0 then Some (with_PortStatus (to_char (Z.lxor (PortStatus s) 1)) s)
    else if pin =? 1 then Some (with_PortStatus (to_char (Z.lxor (PortStatus s) 2)) s)
    else if pin =? 2 then Some (with_PortStatus (to_char (Z.lxor (PortStatus s) 4)) s)
    else if pin =? 3 then Some (with_PortStatus (to_char (Z.lxor (PortStatus s) 8)) s)
    else Some s) >>
  (λ s,
    led ← arr_get ButtonLeds pin;
    digitalWrite led (Z.land (Z.shiftr (PortStatus s) pin) 1) s).

(** [DoButton(int btn, int status)] *)
Definition DoButton (btn status : Z) : Proc := λ s,
  old ← arr_get (ButtonStatus s) btn;
  if old =? status then Some s
  else
    bs ← arr_upd (λ _, to_char status) (ButtonStatus s) btn;
    let s := with_ButtonStatus bs s in
    if status =? LOW then
      (SwitchPorts (to_char btn) >>
       (λ s, EEPROM_update 8 (PortStatus s) s)) s
    else Some s.

(** [CheckButtons()]; [digitalRead] gives the level of each input pin at the
    time of the poll. *)
Definition CheckButtons (digitalRead : Z → Z) : Proc :=
  for_loop 4 0 (λ i s,
    pin ← arr_get ButtonPins i;
    DoButton i (digitalRead pin) s).

(** [ActivityLed()] *)
Definition ActivityLed : Proc := digitalWrite PIN_LED0 HIGH.

(** [NoteMem[i] = f(NoteMem[i])] and [SustainPedal[i] = f(SustainPedal[i])] *)
Definition store_NoteMem (i : Z) (f : NoteMemory → NoteMemory) : Proc := λ s,
  a ← arr_upd f (NoteMem s) i; Some (with_NoteMem a s).
Definition store_SustainPedal (i : Z) (f : NoteMemory → NoteMemory) : Proc := λ s,
  a ← arr_upd f (SustainPedal s) i; Some (with_SustainPedal a s).

(** The [switch (MIDI.getType())] of [loop()]: the routing engine. *)
Definition route (m : MidiMessage) : Proc := λ s,
  let ty := getType m in
  let ch := getChannel m in
  let d1 := getData1 m in
  let d2 := getData2 m in
  if ty =? MIDI_STATUS_NOTEON then
    (store_NoteMem d1 (set_Status 1) >>
     (λ s, store_NoteMem d1 (set_Port (PortStatus s)) s) >>
     (λ s, SetPort (PortStatus s) s) >>
     MIDI_send (sendNoteOn d1 d2 ch) >>
     UsbMidiSend (Z.lor MIDI_STATUS_NOTEON ch) d1 d2) s
  else if ty =? MIDI_STATUS_NOTEOFF then
    e ← arr_get (NoteMem s) d1;
    if Status e =? 0 then Some s
    else
      (store_NoteMem d1 (set_Status 0) >>
       (λ s, e ← arr_get (NoteMem s) d1; SetPort (Port e) s) >>
       MIDI_send (sendNoteOff d1 d2 ch) >>
       UsbMidiSend (Z.lor MIDI_STATUS_NOTEOFF ch) d1 d2) s
  else if ty =? MIDI_STATUS_CONTROLCHANGE then
    if d1 =? 64 then
      if 63 <? d2 then
        (store_SustainPedal (ch - 1) (set_Status 1) >>
         (λ s, store_SustainPedal (ch - 1) (set_Port (PortStatus s)) s) >>
         (λ s, SetPort (PortStatus s) s) >>
         MIDI_send (sendControlChange 64 127 ch) >>
         UsbMidiSend (Z.lor MIDI_STATUS_CONTROLCHANGE ch) 64 127) s
      else
        (store_SustainPedal (ch - 1) (set_Status 0) >>
         (λ s, e ← arr_get (SustainPedal s) (ch - 1); SetPort (Port e) s) >>
         MIDI_send (sendControlChange 64 0 ch) >>
         UsbMidiSend (Z.lor MIDI_STATUS_CONTROLCHANGE ch) 64 0) s
    else
      ((λ s, SetPort (PortStatus s) s) >>
       MIDI_send (sendControlChange d1 d2 ch) >>
       UsbMidiSend (Z.lor MIDI_STATUS_CONTROLCHANGE ch) d1 d2) s
  else if ty =? MIDI_STATUS_PROGRAMCHANGE then
    ((λ s, SetPort (PortStatus s) s) >>
     MIDI_send (sendProgramChange d1 ch) >>
     UsbMidiSend (Z.lor MIDI_STATUS_PROGRAMCHANGE ch) d1 d2) s
  else if ty =? MIDI_STATUS_CHANNELPRESSURE then
    ((λ s, SetPort (PortStatus s) s) >>
     MIDI_send (sendAfterTouch d1 ch) >>
     UsbMidiSend (Z.lor MIDI_STATUS_CHANNELPRESSURE ch) d1 d2) s
  else if ty =? MIDI_STATUS_PITCHBEND then
    ((λ s, SetPort (PortStatus s) s) >>
     MIDI_send (sendPitchBend
                  (to_int (to_int (d1 + to_int (Z.shiftl d2 7)) - 8192)) ch) >>
     UsbMidiSend (Z.lor MIDI_STATUS_PITCHBEND ch) d1 d2) s
  else Some s.

(** The body of [if (MIDI.read())]: blink the activity LED, then route. *)
Definition on_midi (m : MidiMessage) : Proc :=
  digitalWrite PIN_LED0 LOW >>
  (λ s, Some (with_ActivityTimer true s)) >>
  route m.

(** What one iteration of [loop()] finds: the message [MIDI.read()] parsed,
    if any; whether each MillisTimer is due; the levels of the input pins. *)
Record LoopEnv : Type := mkEnv {
  MIDI_read : option MidiMessage;
  ButtonTimer_due : bool;
  ActivityTimer_due : bool;
  digitalRead : Z → Z
}.

(** [ButtonTimer.run(); ActivityTimer.run();] with the one-shot activity
    timer stopping once it has fired. *)
Definition run_timers (env : LoopEnv) : Proc :=
  (if ButtonTimer_due env then CheckButtons (digitalRead env) else skip) >>
  (λ s, if ActivityTimer_running s && ActivityTimer_due env
        then (ActivityLed >> (λ s, Some (with_ActivityTimer false s))) s
        else Some s).

(** [loop()] *)
Definition loop (env : LoopEnv) : Proc :=
  match MIDI_read env with
  | Some m => on_midi m
  | None => skip
  end >> run_timers env.

(** Successive iterations of [loop()]. *)
Fixpoint run (envs : list LoopEnv) : Proc :=
  match envs with
  | [] => skip
  | env :: envs' => loop env >> run envs'
  end.

(** The globals as the C start-up code leaves them, before [setup()]. *)
Definition power_on (rom : gmap Z Z) : State :=
  {| ButtonStatus := [1; 1; 1; 1];
     PortStatus := 0;
     USBPort := 0;
     NoteMem := replicate 128 (mkNoteMemory 0 0);
     SustainPedal := replicate 16 (mkNoteMemory 0 0);
     pins := ∅;
     eeprom := rom;
     ActivityTimer_running := false;
     trace := [] |}.

(** [setup()]; the timer intervals and [MIDI.begin] configure the libraries
    and leave the modelled state alone. *)
Definition setup : Proc :=
  pinMode PIN_LED0 true >>
  ActivityLed >>
  (λ s, Some (with_PortStatus (to_char (EEPROM_read 8 s)) s)) >>
  for_loop 4 0 (λ i,
    (λ s, pin ← arr_get ButtonPins i; pinMode pin false s) >>
    (λ s, pin ← arr_get ButtonLeds i; pinMode pin true s) >>
    (λ s, pin ← arr_get MuxPins i; pinMode pin true s) >>
    (λ s, pin ← arr_get MuxPins i; digitalWrite pin LOW s) >>
    (λ s, pin ← arr_get ButtonLeds i;
          digitalWrite pin (Z.land (Z.shiftr (PortStatus s) i) 1) s)) >>
  for_loop 16 0 (λ c,
    store_SustainPedal c (set_Status 0) >>
    store_SustainPedal c (set_Port 0)) >>
  for_loop 128 0 (λ n,
    store_NoteMem n (set_Status 0) >>
    store_NoteMem n (set_Port 0)).

(** The state after power-up with EEPROM cell 8 holding [mask]. *)
Definition booted (mask : Z) : option State :=
  setup (power_on {[ 8 := mask ]}).

(** The state in which the first [loop()] starts when EEPROM cell 8 holds
    [mask]. *)
Definition boot_state (mask : Z) : State :=
  default (power_on {[ 8 := mask ]}) (booted mask).

(** Input pin levels with the buttons listed in [pressed] held down (the
    buttons are active-low) and the other pins high. *)
Definition buttons_down (pressed : list Z) (pin : Z) : Z :=
  if bool_decide (pin ∈ pressed) then LOW else HIGH.

(** An iteration in which only the button timer is due. *)
Definition poll_env (pressed : list Z) : LoopEnv :=
  {| MIDI_read := None; ButtonTimer_due := true; ActivityTimer_due := false;
     digitalRead := buttons_down pressed |}.

(** An iteration that receives [m] and in which no timer is due. *)
Definition midi_env (m : MidiMessage) : LoopEnv :=
  {| MIDI_read := Some m; ButtonTimer_due := false; ActivityTimer_due := false;
     digitalRead := buttons_down [] |}.

(** ** Observations on states and traces *)

(** What reached the serial MIDI sink, oldest first. *)
Definition serial_out (tr : list Effect) : list SerialMsg :=
  omap (λ e, match e with MidiSerial m => Some m | _ => None end) tr.

(** The packets handed to the USB MIDI sink, oldest first. *)
Definition usb_out (tr : list Effect) : list midiEventPacket_t :=
  omap (λ e, match e with UsbSendMIDI p => Some p | _ => None end) tr.

(** The calls [SetPort(port)] makes. *)
Definition SetPort_calls (port : Z) : list Effect :=
  [DigitalWrite 18 (Z.b2z (Z.testbit port 0));
   DigitalWrite 19 (Z.b2z (Z.testbit port 1));
   DigitalWrite 20 (Z.b2z (Z.testbit port 2));
   DigitalWrite 21 (Z.b2z (Z.testbit port 3));
   DelayMicroseconds 10].

(** The levels of the four multiplexer select lines. *)
Definition mux_lines (s : State) : list (option Z) :=
  (λ pin, pins s !! pin) <$> MuxPins.

(** The select lines once they show [port]. *)
Definition lines_of (port : Z) : list (option Z) :=
  (λ i, Some (Z.b2z (Z.testbit port i))) <$> [0; 1; 2; 3].

(** The packet [UsbMidiSend] builds from its three arguments. *)
Definition usb_event (b1 b2 b3 : Z) : midiEventPacket_t :=
  {| header := to_byte (Z.shiftr (Z.land (to_byte b1) 0xF0) 4);
     byte1 := to_byte (Z.lor (Z.land (to_byte b1) 0xF0)
                             (to_byte (Z.land (to_byte b1) 0x0F - 1)));
     byte2 := to_byte b2;
     byte3 := to_byte b3 |}.

(** The calls [UsbMidiSend(b1, b2, b3)] makes after [SetPort(port)]. *)
Definition usb_calls (port b1 b2 b3 : Z) : list Effect :=
  if Z.testbit port 0 then [UsbSendMIDI (usb_event b1 b2 b3); UsbFlush] else [].

(** The arrays have the sizes the sketch declares. *)
Definition wf_state (s : State) : Prop :=
  length (ButtonStatus s) = 4%nat ∧
  length (NoteMem s) = 128%nat ∧
  length (SustainPedal s) = 16%nat.

(** What the MIDI library delivers for a channel voice message: a channel from
    1 to 16 and 7-bit data bytes. *)
Definition valid_msg (m : MidiMessage) : Prop :=
  1 ≤ getChannel m ≤ 16 ∧ 0 ≤ getData1 m < 128 ∧ 0 ≤ getData2 m < 128.

(** [NoteMem[n].Status] as the [if] of the Note-Off case reads it. *)
Definition note_active (s : State) (n : Z) : bool :=
  match arr_get (NoteMem s) n with
  | Some e => negb (Status e =? 0)
  | None => false
  end.

(** [SustainPedal[ch - 1].Status] for channel [ch] from 1 to 16. *)
Definition sustain_active (s : State) (ch : Z) : bool :=
  match arr_get (SustainPedal s) (ch - 1) with
  | Some e => negb (Status e =? 0)
  | None => false
  end.


(** An iteration of [loop()] in which no MIDI message is pending. *)
Definition idle (env : LoopEnv) : Prop := MIDI_read env = None.


(** ** The common tail of every routed case *)

(** The pin levels after [SetPort(port)]. *)
Definition mux_set (port : Z) (p : gmap Z Z) : gmap Z Z :=
  <[21 := Z.b2z (Z.testbit port 3)]>
    (<[20 := Z.b2z (Z.testbit port 2)]>
       (<[19 := Z.b2z (Z.testbit port 1)]>
          (<[18 := Z.b2z (Z.testbit port 0)]> p))).

(** The state after [SetPort(port); MIDI.send...; UsbMidiSend(b1, b2, b3);]. *)
Definition forwarded (port : Z) (msg : SerialMsg) (b1 b2 b3 : Z) (s : State)
  : State :=
  with_trace (trace s ++ SetPort_calls port
                ++ MidiSerial msg :: usb_calls port b1 b2 b3)
    (with_pins (mux_set port (pins s))
       (with_USBPort (Z.b2z (Z.testbit port 0)) s)).

(** The message types the switch has a case for. *)
Definition routed_types : list Z :=
  [MIDI_STATUS_NOTEON; MIDI_STATUS_NOTEOFF; MIDI_STATUS_CONTROLCHANGE;
   MIDI_STATUS_PROGRAMCHANGE; MIDI_STATUS_CHANNELPRESSURE;
   MIDI_STATUS_PITCHBEND].

(** The state once the activity LED is driven low and its one-shot timer is
    started, which [loop()] does for every message before it routes it. *)
Definition blink (s : State) : State :=
  with_ActivityTimer true
    (with_trace (trace s ++ [DigitalWrite PIN_LED0 LOW])
       (with_pins (<[PIN_LED0 := LOW]> (pins s)) s)).

(** ** What one message puts on the two sinks *)

(** Processing [m] in state [s] returns and, after the activity LED, calls
    [SetPort(port)], hands [msg] to the serial sink and then, when bit 0 of
    [port] is 1, the packet made of the bytes [b1 b2 b3] to the USB sink; when
    that bit is 0 the USB sink gets nothing. *)
Definition forwards (m : MidiMessage) (s : State) (port : Z) (msg : SerialMsg)
    (b1 b2 b3 : Z) : Prop :=
  ∃ s', on_midi m s = Some s' ∧
    trace s' = trace s ++ DigitalWrite PIN_LED0 LOW :: SetPort_calls port
                 ++ MidiSerial msg
                 :: (if Z.testbit port 0
                     then [UsbSendMIDI (usb_event b1 b2 b3); UsbFlush]
                     else []) ∧
    serial_out (trace s') = serial_out (trace s) ++ [msg] ∧
    usb_out (trace s')
    = usb_out (trace s)
        ++ (if Z.testbit port 0 then [usb_event b1 b2 b3] else []).

(** Processing [m] in state [s] returns, blinks the activity LED and puts
    nothing on either sink. *)
Definition swallows (m : MidiMessage) (s : State) : Prop :=
  ∃ s', on_midi m s = Some s' ∧
    trace s' = trace s ++ [DigitalWrite PIN_LED0 LOW] ∧
    serial_out (trace s') = serial_out (trace s) ∧
    usb_out (trace s') = usb_out (trace s).

(** What the button poller and the timers leave alone: the two memory
    tables, the USB gate, the select lines and both MIDI sinks (and the size
    of the button array). *)
Record poll_frame (s s' : State) : Prop := mkPollFrame {
  pf_buttons : length (ButtonStatus s') = length (ButtonStatus s);
  pf_NoteMem : NoteMem s' = NoteMem s;
  pf_SustainPedal : SustainPedal s' = SustainPedal s;
  pf_USBPort : USBPort s' = USBPort s;
  pf_mux : mux_lines s' = mux_lines s;
  pf_serial : serial_out (trace s') = serial_out (trace s);
  pf_usb : usb_out (trace s') = usb_out (trace s)
}.

(** What the routing switch can do to a state: nothing (a dropped Note-Off,
    a type without a case), or set an entry of one of the two tables and then
    forward, or forward only. *)
Inductive routed (m : MidiMessage) (s : State) : State → Prop :=
  | routed_nothing : routed m s s
  | routed_plain port msg b1 b2 b3 :
      routed m s (forwarded port msg b1 b2 b3 s)
  | routed_note port msg b1 b2 b3 e :
      routed m s
        (forwarded port msg b1 b2 b3
           (with_NoteMem (<[Z.to_nat (getData1 m) := e]> (NoteMem s)) s))
  | routed_sustain port msg b1 b2 b3 e :
      getType m = MIDI_STATUS_CONTROLCHANGE →
      getData1 m = 64 →
      routed m s
        (forwarded port msg b1 b2 b3
           (with_SustainPedal
              (<[Z.to_nat (getChannel m - 1) := e]> (SustainPedal s)) s)).

(** A procedure that, from a well-formed state, returns and stays within
    that frame. *)
Definition poll_safe (p : Proc) : Prop :=
  ∀ s, wf_state s → ∃ s', p s = Some s' ∧ poll_frame s s'.

(** ** Invariants of the running sketch *)

(** Every message the iteration may receive is one the MIDI library can
    deliver. *)
Definition valid_env (env : LoopEnv) : Prop :=
  ∀ m, MIDI_read env = Some m → valid_msg m.

(** The EEPROM holds bytes. *)
Definition rom_bytes (rom : gmap Z Z) : Prop :=
  ∀ addr v, rom !! addr = Some v → 0 ≤ v < 256.

(** [PortStatus] is within the range of [char]. *)
Definition mask_is_char (s : State) : Prop := -128 ≤ PortStatus s < 128.

(** EEPROM cell 8 reads as the active mask, as a byte. *)
Definition mask_persisted (s : State) : Prop :=
  EEPROM_read 8 s = to_byte (PortStatus s).

(** The LED of each button shows the bit of its port in the active mask. *)
Definition leds_mirror_mask (s : State) : Prop :=
  ∀ i led, arr_get ButtonLeds i = Some led →
           pins s !! led = Some (Z.b2z (Z.testbit (PortStatus s) i)).

(** The USB gate equals the level of the first select line. *)
Definition gate_mirrors_line0 (s : State) : Prop :=
  mux_lines s !! 0%nat = Some (Some (USBPort s)).

(** What holds of the state between any two iterations of [loop()]. *)
Definition running (s : State) : Prop :=
  wf_state s ∧ mask_is_char s ∧ mask_persisted s ∧ leds_mirror_mask s
  ∧ gate_mirrors_line0 s.

(** A procedure that returns from every state satisfying [I], into a state
    satisfying [I]. *)
Definition preserves (I : State → Prop) (p : Proc) : Prop :=
  ∀ s, I s → ∃ s', p s = Some s' ∧ I s'.

(** The message is a Note-On or a Note-Off for note [n]. *)
Definition is_note (n : Z) (m : MidiMessage) : bool :=
  ((getType m =? MIDI_STATUS_NOTEON) || (getType m =? MIDI_STATUS_NOTEOFF))
  && (getData1 m =? n).

(** An iteration of [loop()] whose message, if there is one, is well formed
    and is neither a Note-On nor a Note-Off for note [n]. *)
Definition no_note_on (n : Z) (env : LoopEnv) : Prop :=
  match MIDI_read env with
  | Some m => valid_msg m ∧ is_note n m = false
  | None => True
  end.

(** * GMLAB UP4: the USB expression pedal

    The second sketch of the repository, [GMLAB_UP4.ino].  It shares no code
    with the thru box, so it lives in a module of its own; the calls into the
    MIDIUSB library are logged with the same [Effect]s. *)

Module UP4.

Definition PIN_D1 : Z := 19.
Definition PIN_D2 : Z := 20.
Definition PIN_D3 : Z := 21.
Definition PIN_D4 : Z := 4.
Definition PIN_D5 : Z := 6.
Definition PIN_D6 : Z := 8.
Definition PIN_D7 : Z := 9.
Definition PIN_D8 : Z := 10.

(** [byte ExpCurve[128]] *)
Definition ExpCurve : list Z :=
  [0; 0; 1; 1; 2; 2; 2; 3; 3; 4; 4; 5; 5; 5; 6; 6; 7; 7; 7; 8; 8; 9; 9; 10;
   10; 10; 11; 11; 12; 12; 12; 13; 13; 14; 14; 15; 15; 15; 16; 16; 17; 17;
   17; 18; 19; 19; 20; 20; 21; 21; 22; 22; 23; 23; 24; 24; 25; 25; 26; 26;
   27; 27; 28; 28; 29; 29; 30; 30; 31; 31; 32; 32; 33; 33; 34; 34; 35; 35;
   36; 36; 37; 38; 39; 41; 42; 43; 44; 46; 47; 48; 49; 51; 52; 53; 54; 56;
   57; 58; 59; 61; 62; 63; 64; 66; 67; 68; 69; 73; 76; 79; 81; 84; 87; 89;
   92; 95; 98; 100; 103; 106; 108; 111; 114; 116; 119; 122; 124; 127].

(** [byte CCnumber[4]] *)
Definition CCnumber : list Z := [11; 4; 2; 7].

Definition DEADBAND : Z := 8.

(** The globals of the sketch and the log of calls into MIDIUSB. *)
Record State : Type := mkState {
  CCselect : Z;
  Channel : Z;
  CurveSelect : Z;
  prev_value : Z;
  trace : list Effect
}.

(** The globals as the C start-up code leaves them. *)
Definition power_on : State :=
  {| CCselect := 0; Channel := 0; CurveSelect := 0; prev_value := -1;
     trace := [] |}.

(** [UsbMidiSend(byte b1, byte b2, byte b3)]; this sketch passes a channel
    from 0 to 15 and does not gate the output. *)
Definition UsbMidiSend (b1 b2 b3 : Z) (s : State) : option State :=
  let b1 := to_byte b1 in
  let b2 := to_byte b2 in
  let b3 := to_byte b3 in
  let Status := Z.land b1 0xF0 in
  let Channel' := Z.land b1 0x0F in
  let Event := {| header := to_byte (Z.shiftr Status 4);
                  byte1 := to_byte (Z.lor Status Channel');
                  byte2 := b2;
                  byte3 := b3 |} in
  Some {| CCselect := CCselect s; Channel := Channel s;
          CurveSelect := CurveSelect s; prev_value := prev_value s;
          trace := trace s ++ [UsbSendMIDI Event; UsbFlush] |}.

(** The [switch (CurveSelect)] of [DoPedal()]; it has no [default], so
    outside 0 to 3 [cc_value] stays uninitialised. *)
Definition cc_value (curve val7bit : Z) : option Z :=
  if curve =? 0 then Some val7bit
  else if curve =? 1 then arr_get ExpCurve val7bit
  else if curve =? 2 then Some (to_byte (127 - val7bit))
  else if curve =? 3 then
    e ← arr_get ExpCurve val7bit; Some (to_byte (127 - e))
  else None.

(** [DoPedal()], with [value] what [analogRead(PIN_POT)] returns. *)
Definition DoPedal (value : Z) (s : State) : option State :=
  let diff := to_int (Z.abs (to_int (value - prev_value s))) in
  if diff <=? DEADBAND then Some s
  else
    let s := {| CCselect := CCselect s; Channel := Channel s;
                CurveSelect := CurveSelect s; prev_value := value;
                trace := trace s |} in
    let val7bit := to_byte (Z.shiftr value 3) in
    cc ← cc_value (CurveSelect s) val7bit;
    number ← arr_get CCnumber (CCselect s);
    UsbMidiSend (Z.lor 0xB0 (Channel s)) number cc s.

(** C's [!x] *)
Definition lnot (x : Z) : Z := if x =? 0 then 1 else 0.

(** [loop()]: read the DIP switches, then the pedal. *)
Definition loop (digitalRead : Z → Z) (analogRead : Z) (s : State)
  : option State :=
  let ch :=
    to_byte (Z.lor (Z.lor (Z.lor (lnot (digitalRead PIN_D1))
                                 (Z.shiftl (lnot (digitalRead PIN_D2)) 1))
                          (Z.shiftl (lnot (digitalRead PIN_D3)) 2))
                   (Z.shiftl (lnot (digitalRead PIN_D4)) 3)) in
  let cs :=
    to_byte (Z.lor (lnot (digitalRead PIN_D5))
                   (Z.shiftl (lnot (digitalRead PIN_D6)) 1)) in
  let cv :=
    to_byte (Z.lor (lnot (digitalRead PIN_D7))
                   (Z.shiftl (lnot (digitalRead PIN_D8)) 1)) in
  DoPedal analogRead
    {| CCselect := cs; Channel := ch; CurveSelect := cv;
       prev_value := prev_value s; trace := trace s |}.

(** Successive iterations of [loop()] with the DIP switches left alone. *)
Fixpoint run (digitalRead : Z → Z) (readings : list Z) (s : State)
  : option State :=
  match readings with
  | [] => Some s
  | value :: readings' => loop digitalRead value s ≫= run digitalRead readings'
  end.

(** The packets sent, oldest first. *)
Definition sent (s : State) : list midiEventPacket_t := usb_out (trace s).

End UP4.

(** ** Integer facts *)

Lemma land_1_bit (p : Z) : Z.land p 1 = Z.b2z (Z.testbit p 0).
Proof.
  change 1 with (Z.ones 1). rewrite Z.land_ones by lia.
  symmetry. apply Z.bit0_mod.
Qed.

Lemma land_shiftr_1_bit (p i : Z) :
  0 ≤ i → Z.land (Z.shiftr p i) 1 = Z.b2z (Z.testbit p i).
Proof.
  intros Hi. rewrite land_1_bit, Z.shiftr_spec by lia. by rewrite Z.add_0_l.
Qed.

Lemma to_char_id (z : Z) : -128 ≤ z < 128 → to_char z = z.
Proof. intros H. unfold to_char. rewrite Z.mod_small; lia. Qed.

Lemma to_byte_id (z : Z) : 0 ≤ z < 256 → to_byte z = z.
Proof. intros H. unfold to_byte. by rewrite Z.mod_small. Qed.

Lemma to_int_id (z : Z) : -32768 ≤ z < 32768 → to_int z = z.
Proof. intros H. unfold to_int. rewrite Z.mod_small; lia. Qed.

Lemma to_char_b2z (b : bool) : to_char (Z.b2z b) = Z.b2z b.
Proof. by destruct b. Qed.

(** ** Array facts *)

Lemma arr_get_Some {A} (a : list A) (i : Z) :
  0 ≤ i < Z.of_nat (length a) → is_Some (arr_get a i).
Proof.
  intros [H0 H1]. unfold arr_get.
  destruct (Z.leb_spec 0 i); [|lia].
  apply lookup_lt_is_Some. lia.
Qed.

Lemma arr_get_range {A} (a : list A) (i : Z) (x : A) :
  arr_get a i = Some x → 0 ≤ i < Z.of_nat (length a).
Proof.
  unfold arr_get. destruct (Z.leb_spec 0 i); [|done].
  intros Hl%lookup_lt_Some. lia.
Qed.

Lemma arr_get_insert_eq {A} (a : list A) (i : Z) (x y : A) :
  arr_get a i = Some x → arr_get (<[Z.to_nat i := y]> a) i = Some y.
Proof.
  unfold arr_get. destruct (0 <=? i); [|done].
  intros H%lookup_lt_Some. by apply list_lookup_insert_eq.
Qed.

Lemma arr_get_insert_ne {A} (a : list A) (i j : Z) (y : A) :
  0 ≤ i → i ≠ j → arr_get (<[Z.to_nat i := y]> a) j = arr_get a j.
Proof.
  intros Hi Hne. unfold arr_get. destruct (Z.leb_spec 0 j); [|done].
  apply list_lookup_insert_ne. lia.
Qed.

Lemma arr_upd_Some {A} (f : A → A) (a : list A) (i : Z) (x : A) :
  arr_get a i = Some x → arr_upd f a i = Some (<[Z.to_nat i := f x]> a).
Proof. intros H. unfold arr_upd. by rewrite H. Qed.

(** ** Symbolic execution *)

(** Symbolic execution: unfold the primitives and the record plumbing, and
    nothing else. *)
Ltac run_proc :=
  cbv [andThen skip emit digitalWrite delayMicroseconds pinMode MIDI_send
       EEPROM_update store_NoteMem store_SustainPedal
       with_ButtonStatus with_PortStatus with_USBPort with_NoteMem
       with_SustainPedal with_pins with_eeprom with_ActivityTimer with_trace
       ButtonStatus PortStatus USBPort NoteMem SustainPedal pins eeprom
       ActivityTimer_running trace mbind option_bind
       getType getChannel getData1 getData2
       set_Status set_Port Status Port].

(** Decide the comparisons between literals that the goal contains. *)
Ltac eval_const_eqb :=
  repeat match goal with
  | |- context [Z.eqb ?a ?b] =>
      let r := eval vm_compute in (Z.eqb a b) in
      match r with
      | true => change (Z.eqb a b) with true
      | false => change (Z.eqb a b) with false
      end
  end; cbv beta iota.

Lemma level_b2z (b : bool) : (if Z.b2z b =? LOW then LOW else HIGH) = Z.b2z b.
Proof. by destruct b. Qed.

Lemma SetPort_unroll (port : Z) (s : State) :
  SetPort port s =
  (digitalWrite 18 (Z.land (Z.shiftr port 0) 1) >>
   digitalWrite 19 (Z.land (Z.shiftr port 1) 1) >>
   digitalWrite 20 (Z.land (Z.shiftr port 2) 1) >>
   digitalWrite 21 (Z.land (Z.shiftr port 3) 1) >>
   delayMicroseconds 10) (with_USBPort (to_char (Z.land port 1)) s).
Proof. reflexivity. Qed.

Lemma SetPort_eq (port : Z) (s : State) :
  SetPort port s =
  Some (with_trace (trace s ++ SetPort_calls port)
          (with_pins (mux_set port (pins s))
             (with_USBPort (Z.b2z (Z.testbit port 0)) s))).
Proof.
  rewrite SetPort_unroll, !land_shiftr_1_bit by lia.
  rewrite land_1_bit, to_char_b2z.
  destruct s. run_proc. rewrite !level_b2z, <- !app_assoc. reflexivity.
Qed.

Lemma forward_eq (port : Z) (msg : SerialMsg) (b1 b2 b3 : Z) (s : State) :
  SetPort port s ≫= (MIDI_send msg >> UsbMidiSend b1 b2 b3) =
  Some (forwarded port msg b1 b2 b3 s).
Proof.
  rewrite SetPort_eq. unfold forwarded, usb_calls, usb_event, UsbMidiSend.
  destruct s. run_proc.
  destruct (Z.testbit port 0); eval_const_eqb; rewrite <- !app_assoc; reflexivity.
Qed.

(** ** The cases of the routing switch *)

Lemma store_NoteMem_eq (i : Z) (f : NoteMemory → NoteMemory) (s : State)
    (e : NoteMemory) :
  arr_get (NoteMem s) i = Some e →
  store_NoteMem i f s = Some (with_NoteMem (<[Z.to_nat i := f e]> (NoteMem s)) s).
Proof. intros He. unfold store_NoteMem. by rewrite (arr_upd_Some _ _ _ _ He). Qed.

Lemma store_SustainPedal_eq (i : Z) (f : NoteMemory → NoteMemory) (s : State)
    (e : NoteMemory) :
  arr_get (SustainPedal s) i = Some e →
  store_SustainPedal i f s =
  Some (with_SustainPedal (<[Z.to_nat i := f e]> (SustainPedal s)) s).
Proof.
  intros He. unfold store_SustainPedal. by rewrite (arr_upd_Some _ _ _ _ He).
Qed.

Lemma route_NoteOn (m : MidiMessage) (s : State) (e : NoteMemory) :
  getType m = MIDI_STATUS_NOTEON →
  arr_get (NoteMem s) (getData1 m) = Some e →
  route m s =
  Some (forwarded (PortStatus s)
          (sendNoteOn (getData1 m) (getData2 m) (getChannel m))
          (Z.lor MIDI_STATUS_NOTEON (getChannel m)) (getData1 m) (getData2 m)
          (with_NoteMem
             (<[Z.to_nat (getData1 m) := mkNoteMemory 1 (PortStatus s)]>
                (NoteMem s)) s)).
Proof.
  intros Hty He. unfold route. rewrite Hty. eval_const_eqb. cbv zeta.
  unfold andThen at 1.
  rewrite (store_NoteMem_eq _ _ _ _ He). cbn [mbind option_bind].
  unfold andThen at 1.
  erewrite store_NoteMem_eq by (by eapply arr_get_insert_eq).
  cbn [mbind option_bind]. unfold andThen at 1.
  rewrite <- forward_eq. destruct s. run_proc.
  by rewrite list_insert_insert_eq.
Qed.

Lemma route_NoteOff_idle (m : MidiMessage) (s : State) (e : NoteMemory) :
  getType m = MIDI_STATUS_NOTEOFF →
  arr_get (NoteMem s) (getData1 m) = Some e →
  Status e = 0 →
  route m s = Some s.
Proof.
  intros Hty He Hst. unfold route. rewrite Hty. eval_const_eqb. cbv zeta.
  rewrite He. cbn [mbind option_bind]. by rewrite Hst.
Qed.

Lemma route_NoteOff_held (m : MidiMessage) (s : State) (e : NoteMemory) :
  getType m = MIDI_STATUS_NOTEOFF →
  arr_get (NoteMem s) (getData1 m) = Some e →
  Status e ≠ 0 →
  route m s =
  Some (forwarded (Port e)
          (sendNoteOff (getData1 m) (getData2 m) (getChannel m))
          (Z.lor MIDI_STATUS_NOTEOFF (getChannel m)) (getData1 m) (getData2 m)
          (with_NoteMem
             (<[Z.to_nat (getData1 m) := mkNoteMemory 0 (Port e)]> (NoteMem s))
             s)).
Proof.
  intros Hty He Hst. unfold route. rewrite Hty. eval_const_eqb. cbv zeta.
  rewrite He. cbn [mbind option_bind].
  rewrite (proj2 (Z.eqb_neq _ _) Hst).
  unfold andThen at 1.
  rewrite (store_NoteMem_eq _ _ _ _ He). cbn [mbind option_bind].
  unfold andThen at 1. rewrite <- forward_eq.
  destruct s. run_proc. cbn [NoteMem] in He.
  by rewrite (arr_get_insert_eq _ _ _ _ He).
Qed.

Lemma route_sustain_on (m : MidiMessage) (s : State) (e : NoteMemory) :
  getType m = MIDI_STATUS_CONTROLCHANGE →
  getData1 m = 64 →
  63 < getData2 m →
  arr_get (SustainPedal s) (getChannel m - 1) = Some e →
  route m s =
  Some (forwarded (PortStatus s) (sendControlChange 64 127 (getChannel m))
          (Z.lor MIDI_STATUS_CONTROLCHANGE (getChannel m)) 64 127
          (with_SustainPedal
             (<[Z.to_nat (getChannel m - 1) := mkNoteMemory 1 (PortStatus s)]>
                (SustainPedal s)) s)).
Proof.
  intros Hty Hd1 Hd2 He. unfold route. rewrite Hty, Hd1. eval_const_eqb.
  cbv zeta. rewrite (proj2 (Z.ltb_lt _ _) Hd2).
  unfold andThen at 1.
  rewrite (store_SustainPedal_eq _ _ _ _ He). cbn [mbind option_bind].
  unfold andThen at 1.
  erewrite store_SustainPedal_eq by (by eapply arr_get_insert_eq).
  cbn [mbind option_bind]. unfold andThen at 1.
  rewrite <- forward_eq. destruct s. run_proc.
  by rewrite list_insert_insert_eq.
Qed.

Lemma route_sustain_off (m : MidiMessage) (s : State) (e : NoteMemory) :
  getType m = MIDI_STATUS_CONTROLCHANGE →
  getData1 m = 64 →
  getData2 m ≤ 63 →
  arr_get (SustainPedal s) (getChannel m - 1) = Some e →
  route m s =
  Some (forwarded (Port e) (sendControlChange 64 0 (getChannel m))
          (Z.lor MIDI_STATUS_CONTROLCHANGE (getChannel m)) 64 0
          (with_SustainPedal
             (<[Z.to_nat (getChannel m - 1) := mkNoteMemory 0 (Port e)]>
                (SustainPedal s)) s)).
Proof.
  intros Hty Hd1 Hd2 He. unfold route. rewrite Hty, Hd1. eval_const_eqb.
  cbv zeta. rewrite (proj2 (Z.ltb_ge _ _) Hd2).
  unfold andThen at 1.
  rewrite (store_SustainPedal_eq _ _ _ _ He). cbn [mbind option_bind].
  unfold andThen at 1. rewrite <- forward_eq.
  destruct s. run_proc. cbn [SustainPedal] in He.
  by rewrite (arr_get_insert_eq _ _ _ _ He).
Qed.

Lemma route_ControlChange (m : MidiMessage) (s : State) :
  getType m = MIDI_STATUS_CONTROLCHANGE →
  getData1 m ≠ 64 →
  route m s =
  Some (forwarded (PortStatus s)
          (sendControlChange (getData1 m) (getData2 m) (getChannel m))
          (Z.lor MIDI_STATUS_CONTROLCHANGE (getChannel m))
          (getData1 m) (getData2 m) s).
Proof.
  intros Hty Hd1. unfold route. rewrite Hty. eval_const_eqb. cbv zeta.
  rewrite (proj2 (Z.eqb_neq _ _) Hd1).
  unfold andThen at 1. cbv beta. apply forward_eq.
Qed.

Lemma route_ProgramChange (m : MidiMessage) (s : State) :
  getType m = MIDI_STATUS_PROGRAMCHANGE →
  route m s =
  Some (forwarded (PortStatus s)
          (sendProgramChange (getData1 m) (getChannel m))
          (Z.lor MIDI_STATUS_PROGRAMCHANGE (getChannel m))
          (getData1 m) (getData2 m) s).
Proof.
  intros Hty. unfold route. rewrite Hty. eval_const_eqb. cbv zeta.
  unfold andThen at 1. cbv beta. apply forward_eq.
Qed.

Lemma route_ChannelPressure (m : MidiMessage) (s : State) :
  getType m = MIDI_STATUS_CHANNELPRESSURE →
  route m s =
  Some (forwarded (PortStatus s)
          (sendAfterTouch (getData1 m) (getChannel m))
          (Z.lor MIDI_STATUS_CHANNELPRESSURE (getChannel m))
          (getData1 m) (getData2 m) s).
Proof.
  intros Hty. unfold route. rewrite Hty. eval_const_eqb. cbv zeta.
  unfold andThen at 1. cbv beta. apply forward_eq.
Qed.

Lemma route_PitchBend (m : MidiMessage) (s : State) :
  getType m = MIDI_STATUS_PITCHBEND →
  route m s =
  Some (forwarded (PortStatus s)
          (sendPitchBend
             (to_int (to_int (getData1 m + to_int (Z.shiftl (getData2 m) 7))
                      - 8192))
             (getChannel m))
          (Z.lor MIDI_STATUS_PITCHBEND (getChannel m))
          (getData1 m) (getData2 m) s).
Proof.
  intros Hty. unfold route. rewrite Hty. eval_const_eqb. cbv zeta.
  unfold andThen at 1. cbv beta. apply forward_eq.
Qed.

Lemma route_ignored (m : MidiMessage) (s : State) :
  getType m ∉ routed_types → route m s = Some s.
Proof.
  intros Hty. unfold route, routed_types in *. cbv zeta.
  repeat match goal with
  | |- context [getType m =? ?c] =>
      destruct (Z.eqb_spec (getType m) c) as [Heq|_];
      [exfalso; apply Hty; rewrite Heq; set_solver|]
  end.
  reflexivity.
Qed.

Lemma on_midi_eq (m : MidiMessage) (s : State) :
  on_midi m s = route m (blink s).
Proof. reflexivity. Qed.

(** ** Facts about the observations *)

Lemma serial_out_app (l k : list Effect) :
  serial_out (l ++ k) = serial_out l ++ serial_out k.
Proof. apply omap_app. Qed.

Lemma usb_out_app (l k : list Effect) :
  usb_out (l ++ k) = usb_out l ++ usb_out k.
Proof. apply omap_app. Qed.

Lemma mux_set_lookup (port pin : Z) (p : gmap Z Z) :
  pin ∉ MuxPins → mux_set port p !! pin = p !! pin.
Proof.
  intros Hpin. unfold mux_set, MuxPins in *.
  rewrite !lookup_insert_ne; [done|set_solver..].
Qed.

Lemma mux_lines_pins (s s' : State) :
  (∀ pin, pin ∈ MuxPins → pins s' !! pin = pins s !! pin) →
  mux_lines s' = mux_lines s.
Proof.
  intros H. unfold mux_lines, MuxPins in *. cbn [fmap list_fmap].
  rewrite !H by set_solver. reflexivity.
Qed.

Lemma mux_lines_forwarded (port : Z) (msg : SerialMsg) (b1 b2 b3 : Z)
    (s : State) :
  mux_lines (forwarded port msg b1 b2 b3 s) = lines_of port.
Proof.
  unfold mux_lines, lines_of, forwarded, mux_set, MuxPins.
  destruct s. run_proc. cbn [fmap list_fmap].
  repeat f_equal; by simplify_map_eq.
Qed.

(** ** The button poller *)

Lemma poll_frame_refl (s : State) : poll_frame s s.
Proof. by split. Qed.

Lemma poll_frame_trans (s1 s2 s3 : State) :
  poll_frame s1 s2 → poll_frame s2 s3 → poll_frame s1 s3.
Proof. intros [] []. split; congruence. Qed.

Lemma arr_get_elem {A} (a : list A) (i : Z) (x : A) :
  arr_get a i = Some x → x ∈ a.
Proof.
  unfold arr_get. destruct (0 <=? i); [|done].
  intros. by eapply list_elem_of_lookup_2.
Qed.

(** Writing a pin that is not a select line, and logging calls that are not
    MIDI output, stays within the frame. *)
Lemma poll_frame_step (s : State) (bs : list Z) (ps : Z) (pn ee : gmap Z Z)
    (at' : bool) (calls : list Effect) :
  length bs = length (ButtonStatus s) →
  (∀ pin, pin ∈ MuxPins → pn !! pin = pins s !! pin) →
  serial_out calls = [] → usb_out calls = [] →
  poll_frame s
    (mkState bs ps (USBPort s) (NoteMem s) (SustainPedal s) pn ee at'
             (trace s ++ calls)).
Proof.
  intros Hbs Hpn Hser Husb.
  split; cbn [ButtonStatus NoteMem SustainPedal USBPort trace]; try done.
  - by apply mux_lines_pins.
  - by rewrite serial_out_app, Hser, app_nil_r.
  - by rewrite usb_out_app, Husb, app_nil_r.
Qed.

Lemma wf_poll_frame (s s' : State) :
  wf_state s → poll_frame s s' → wf_state s'.
Proof. intros (?&?&?) []. unfold wf_state. by repeat split; congruence. Qed.

Lemma led_not_mux (led pin : Z) :
  led ∈ ButtonLeds → pin ∈ MuxPins → led ≠ pin.
Proof.
  unfold ButtonLeds, MuxPins. rewrite !elem_of_cons, !elem_of_nil. lia.
Qed.

Lemma SwitchPorts_frame (pin : Z) (s s' : State) :
  SwitchPorts pin s = Some s' → poll_frame s s'.
Proof.
  unfold SwitchPorts. unfold andThen.
  set (s1 := if pin =? 0 then _ else _).
  assert (∃ ps, s1 = Some (with_PortStatus ps s)) as [ps ->].
  { subst s1. repeat case_match; eauto. destruct s; eauto. }
  cbn [mbind option_bind].
  destruct (arr_get ButtonLeds pin) as [led|] eqn:Hled; [|done].
  apply arr_get_elem in Hled.
  cbn [mbind option_bind]. destruct s. run_proc. intros [= <-].
  apply (poll_frame_step (mkState _ _ _ _ _ _ _ _ _)); [done| |done..].
  intros p Hp. cbn [pins]. apply lookup_insert_ne. by apply led_not_mux.
Qed.

Lemma DoButton_frame (btn status : Z) (s s' : State) :
  DoButton btn status s = Some s' → poll_frame s s'.
Proof.
  unfold DoButton.
  destruct (arr_get (ButtonStatus s) btn) as [old|] eqn:Hold; [|done].
  cbn [mbind option_bind].
  destruct (old =? status).
  { intros [= <-]. apply poll_frame_refl. }
  rewrite (arr_upd_Some _ _ _ _ Hold). cbn [mbind option_bind].
  set (s1 := with_ButtonStatus _ s).
  assert (poll_frame s s1) as Hf1.
  { subst s1. destruct s. run_proc.
    rewrite <- (app_nil_r trace0) at 2.
    apply (poll_frame_step (mkState _ _ _ _ _ _ _ _ _)); [|done..].
    apply length_insert. }
  destruct (status =? LOW); [|by intros [= <-]].
  unfold andThen.
  destruct (SwitchPorts (to_char btn) s1) as [s2|] eqn:Hsw; [|done].
  apply SwitchPorts_frame in Hsw.
  cbn [mbind option_bind]. unfold EEPROM_update, emit. intros [= <-].
  eapply poll_frame_trans; [exact Hf1|]. eapply poll_frame_trans; [exact Hsw|].
  destruct s2. run_proc.
  by apply (poll_frame_step (mkState _ _ _ _ _ _ _ _ _)).
Qed.

Lemma SwitchPorts_total (pin : Z) (s : State) :
  0 ≤ pin < 4 → is_Some (SwitchPorts pin s).
Proof.
  intros Hpin. unfold SwitchPorts, andThen.
  set (s1 := if pin =? 0 then _ else _).
  assert (∃ s2, s1 = Some s2) as [s2 ->] by (subst s1; repeat case_match; eauto).
  cbn [mbind option_bind].
  destruct (arr_get_Some ButtonLeds pin) as [led ->]; [cbn; lia|].
  by eexists.
Qed.

Lemma DoButton_total (btn status : Z) (s : State) :
  0 ≤ btn < 4 → wf_state s → is_Some (DoButton btn status s).
Proof.
  intros Hbtn (Hbs&_&_). unfold DoButton.
  destruct (arr_get_Some (ButtonStatus s) btn) as [old Hold]; [lia|].
  rewrite Hold. cbn [mbind option_bind].
  destruct (old =? status); [by eexists|].
  rewrite (arr_upd_Some _ _ _ _ Hold). cbn [mbind option_bind].
  destruct (status =? LOW); [|by eexists].
  unfold andThen. rewrite to_char_id by lia.
  destruct (SwitchPorts_total btn (with_ButtonStatus
    (<[Z.to_nat btn := to_char status]> (ButtonStatus s)) s)) as [s2 ->];
    [done|].
  by eexists.
Qed.

Lemma poll_safe_skip : poll_safe skip.
Proof. intros s _. exists s. split; [done|apply poll_frame_refl]. Qed.

Lemma poll_safe_andThen (p q : Proc) :
  poll_safe p → poll_safe q → poll_safe (p >> q).
Proof.
  intros Hp Hq s Hwf. destruct (Hp s Hwf) as (s1&Hs1&Hf1).
  destruct (Hq s1) as (s2&Hs2&Hf2); [by eapply wf_poll_frame|].
  exists s2. split; [|by eapply poll_frame_trans].
  unfold andThen. by rewrite Hs1.
Qed.

Lemma poll_safe_DoButton (btn status : Z) :
  0 ≤ btn < 4 → poll_safe (DoButton btn status).
Proof.
  intros Hbtn s Hwf. destruct (DoButton_total btn status s) as [s' Hs']; [done..|].
  exists s'. split; [done|]. by eapply DoButton_frame.
Qed.

Lemma CheckButtons_unroll (digitalRead : Z → Z) :
  CheckButtons digitalRead =
  DoButton 0 (digitalRead 2) >> DoButton 1 (digitalRead 3) >>
  DoButton 2 (digitalRead 4) >> DoButton 3 (digitalRead 5) >> skip.
Proof. reflexivity. Qed.

Lemma poll_safe_CheckButtons (digitalRead : Z → Z) :
  poll_safe (CheckButtons digitalRead).
Proof.
  rewrite CheckButtons_unroll.
  repeat apply poll_safe_andThen; try apply poll_safe_skip;
    apply poll_safe_DoButton; lia.
Qed.

Lemma poll_safe_run_timers (env : LoopEnv) : poll_safe (run_timers env).
Proof.
  unfold run_timers. apply poll_safe_andThen.
  { destruct (ButtonTimer_due env);
      [apply poll_safe_CheckButtons|apply poll_safe_skip]. }
  intros s Hwf.
  destruct (ActivityTimer_running s && ActivityTimer_due env);
    [|exists s; split; [done|apply poll_frame_refl]].
  eexists. split; [reflexivity|].
  destruct s. run_proc.
  apply (poll_frame_step (mkState _ _ _ _ _ _ _ _ _)); [done| |done..].
  intros p Hp. cbn [pins]. apply lookup_insert_ne.
  unfold PIN_LED0, MuxPins in *. revert Hp.
  rewrite !elem_of_cons, elem_of_nil. lia.
Qed.

Lemma poll_safe_loop_idle (env : LoopEnv) : idle env → poll_safe (loop env).
Proof.
  unfold idle, loop. intros ->.
  apply poll_safe_andThen; [apply poll_safe_skip|apply poll_safe_run_timers].
Qed.

Lemma poll_safe_run_idle (envs : list LoopEnv) :
  Forall idle envs → poll_safe (run envs).
Proof.
  induction 1 as [|env envs Henv _ IH]; cbn [run].
  - apply poll_safe_skip.
  - apply poll_safe_andThen; [by apply poll_safe_loop_idle|exact IH].
Qed.

(** ** Every message is routed, dropped or ignored *)

Lemma route_routed (m : MidiMessage) (s : State) :
  wf_state s → valid_msg m → ∃ s', route m s = Some s' ∧ routed m s s'.
Proof.
  intros (_&Hnm&Hsp) (Hch&Hd1&Hd2).
  destruct (arr_get_Some (NoteMem s) (getData1 m)) as [e He]; [lia|].
  destruct (arr_get_Some (SustainPedal s) (getChannel m - 1)) as [p Hp]; [lia|].
  destruct (decide (getType m ∈ routed_types)) as [Hty|Hty];
    [|eexists; split; [by apply route_ignored|constructor]].
  unfold routed_types in Hty.
  rewrite !elem_of_cons, elem_of_nil in Hty.
  destruct Hty as [Hty|[Hty|[Hty|[Hty|[Hty|[Hty|[]]]]]]].
  - eexists. split; [by eapply route_NoteOn|apply routed_note].
  - destruct (decide (Status e = 0)).
    + eexists. split; [by eapply route_NoteOff_idle|constructor].
    + eexists. split; [by eapply route_NoteOff_held|apply routed_note].
  - destruct (decide (getData1 m = 64)) as [H64|H64].
    + destruct (decide (63 < getData2 m)).
      * eexists. split; [by eapply route_sustain_on|by apply routed_sustain].
      * eexists. split; [eapply route_sustain_off; [done..|lia|done]|].
        by apply routed_sustain.
    + eexists. split; [by eapply route_ControlChange|constructor].
  - eexists. split; [by eapply route_ProgramChange|constructor].
  - eexists. split; [by eapply route_ChannelPressure|constructor].
  - eexists. split; [by eapply route_PitchBend|constructor].
Qed.

Lemma wf_blink (s : State) : wf_state s → wf_state (blink s).
Proof. by destruct s. Qed.

Lemma routed_wf (m : MidiMessage) (s s' : State) :
  wf_state s → routed m s s' → wf_state s'.
Proof.
  intros (Hbs&Hnm&Hsp) Hr. destruct Hr; destruct s; unfold wf_state in *;
    cbn in *; rewrite ?length_insert; done.
Qed.


(** ** The arrays stay in bounds *)

(** [setup()] returns, for whatever byte EEPROM cell 8 holds, with the arrays
    at their declared sizes and the stored mask as the active one. *)
Lemma setup_total (mask : Z) : is_Some (booted mask).
Proof. vm_compute. by eexists. Qed.

Lemma setup_boot_state (mask : Z) :
  booted mask = Some (boot_state mask) ∧
  wf_state (boot_state mask) ∧
  PortStatus (boot_state mask) = to_char mask.
Proof.
  split; [|split].
  - unfold boot_state. by destruct (setup_total mask) as [s ->].
  - by vm_compute.
  - by vm_compute.
Qed.

(** One iteration of [loop()] on a message the MIDI library can deliver keeps
    every array access in bounds and the arrays at their sizes. *)
Lemma loop_total (env : LoopEnv) (s : State) :
  wf_state s →
  (∀ m, MIDI_read env = Some m → valid_msg m) →
  ∃ s', loop env s = Some s' ∧ wf_state s'.
Proof.
  intros Hwf Hm. unfold loop. destruct (MIDI_read env) as [m|].
  - destruct (route_routed m (blink s)) as (s1&Hs1&Hr);
      [by apply wf_blink|by apply Hm|].
    assert (wf_state s1) as Hwf1 by (eapply routed_wf; [by apply wf_blink|done]).
    destruct (poll_safe_run_timers env s1 Hwf1) as (s'&Hs'&Hf).
    exists s'. split; [|by eapply wf_poll_frame].
    unfold andThen. by rewrite on_midi_eq, Hs1.
  - destruct (poll_safe_run_timers env s Hwf) as (s'&Hs'&Hf).
    exists s'. split; [done|by eapply wf_poll_frame].
Qed.

(** ** Note memory: capture on Note-On, consume on Note-Off *)

(** One iteration of [loop()] that receives a Note-On for [n], followed by
    iterations without MIDI input: the entry of [n] is held with the mask
    that was live when the Note-On was processed. *)
Lemma note_on_then_idle (n v c : Z) (env : LoopEnv) (envs : list LoopEnv)
    (s0 : State) :
  wf_state s0 → 0 ≤ n < 128 →
  MIDI_read env = Some (mkMsg MIDI_STATUS_NOTEON c n v) →
  Forall idle envs →
  ∃ s2, run (env :: envs) s0 = Some s2 ∧ wf_state s2 ∧
        arr_get (NoteMem s2) n = Some (mkNoteMemory 1 (PortStatus s0)).
Proof.
  intros Hwf Hn Henv Hidle.
  assert (wf_state (blink s0)) as Hwfb by by apply wf_blink.
  destruct (arr_get_Some (NoteMem (blink s0)) n) as [e He];
    [destruct Hwfb as (_&->&_); lia|].
  pose proof (route_NoteOn (mkMsg MIDI_STATUS_NOTEON c n v) (blink s0) e
                eq_refl He) as Hon.
  cbn [getData1 getData2 getChannel] in Hon.
  set (s1 := forwarded _ _ _ _ _ _) in Hon.
  assert (wf_state s1) as Hwf1.
  { eapply routed_wf; [exact Hwfb|].
    apply (routed_note (mkMsg MIDI_STATUS_NOTEON c n v)). }
  assert (arr_get (NoteMem s1) n = Some (mkNoteMemory 1 (PortStatus s0))) as H1.
  { subst s1. unfold forwarded.
    cbn [NoteMem with_trace with_pins with_USBPort with_NoteMem].
    erewrite arr_get_insert_eq by exact He. by destruct s0. }
  destruct (poll_safe_run_timers env s1 Hwf1) as (s1'&Hs1'&Hf1).
  destruct (poll_safe_run_idle envs Hidle s1') as (s2&Hs2&Hf2);
    [by eapply wf_poll_frame|].
  exists s2. split; [|split].
  - cbn [run]. unfold andThen at 1. unfold loop. rewrite Henv.
    unfold andThen at 1. rewrite on_midi_eq, Hon. cbn [mbind option_bind].
    rewrite Hs1'. exact Hs2.
  - eapply wf_poll_frame; [|exact Hf2]. by eapply wf_poll_frame.
  - by rewrite (pf_NoteMem _ _ Hf2), (pf_NoteMem _ _ Hf1).
Qed.

(** Processing a Note-Off for a note whose entry is held with mask [port]. *)
Lemma note_off_held (n v c port st : Z) (s : State) :
  arr_get (NoteMem s) n = Some (mkNoteMemory st port) → st ≠ 0 →
  ∃ s', on_midi (mkMsg MIDI_STATUS_NOTEOFF c n v) s = Some s' ∧
        trace s' = trace s ++ DigitalWrite PIN_LED0 LOW :: SetPort_calls port
                     ++ MidiSerial (sendNoteOff n v c)
                     :: usb_calls port (Z.lor MIDI_STATUS_NOTEOFF c) n v ∧
        arr_get (NoteMem s') n = Some (mkNoteMemory 0 port) ∧
        mux_lines s' = lines_of port ∧
        USBPort s' = Z.b2z (Z.testbit port 0) ∧
        PortStatus s' = PortStatus s.
Proof.
  intros He Hst.
  assert (arr_get (NoteMem (blink s)) n = Some (mkNoteMemory st port)) as Heb
    by by destruct s.
  pose proof (route_NoteOff_held (mkMsg MIDI_STATUS_NOTEOFF c n v) (blink s) _
                eq_refl Heb Hst) as Hoff.
  cbn [getData1 getData2 getChannel Port] in Hoff.
  eexists. split; [by rewrite on_midi_eq|].
  split; [|split; [|split; [|split]]].
  - destruct s. unfold forwarded, blink. run_proc.
    by rewrite <- app_assoc.
  - unfold forwarded.
    cbn [NoteMem with_trace with_pins with_USBPort with_NoteMem].
    by erewrite arr_get_insert_eq by exact Heb.
  - apply mux_lines_forwarded.
  - by destruct s.
  - by destruct s.
Qed.

Lemma note_active_held (s : State) (n st port : Z) :
  arr_get (NoteMem s) n = Some (mkNoteMemory st port) →
  note_active s n = negb (st =? 0).
Proof. intros H. unfold note_active. by rewrite H. Qed.

(** C1. A Note-On for note [n] is processed while the active port mask is
    [PortStatus s0]; then [loop()] runs any number of times without MIDI input,
    with the button poller changing the active mask as it likes; then a
    Note-Off for [n] is processed.  The Note-Off calls [SetPort] with the mask
    captured at the Note-On, whatever the live mask is by then, is sent to the
    serial sink (and to the USB sink under the gate of that mask), clears the
    entry of [n], and leaves the select lines and the USB gate on the captured
    mask; the live mask itself is not touched. *)
Theorem note_off_routed_with_captured_mask
    (n v1 c1 v2 c2 : Z) (env : LoopEnv) (envs : list LoopEnv) (s0 : State) :
  wf_state s0 → 0 ≤ n < 128 →
  MIDI_read env = Some (mkMsg MIDI_STATUS_NOTEON c1 n v1) →
  Forall idle envs →
  ∃ s2 s3,
    run (env :: envs) s0 = Some s2 ∧
    note_active s2 n = true ∧
    on_midi (mkMsg MIDI_STATUS_NOTEOFF c2 n v2) s2 = Some s3 ∧
    trace s3 = trace s2 ++ DigitalWrite PIN_LED0 LOW
                 :: SetPort_calls (PortStatus s0)
                 ++ MidiSerial (sendNoteOff n v2 c2)
                 :: usb_calls (PortStatus s0) (Z.lor MIDI_STATUS_NOTEOFF c2) n v2 ∧
    note_active s3 n = false ∧
    mux_lines s3 = lines_of (PortStatus s0) ∧
    USBPort s3 = Z.b2z (Z.testbit (PortStatus s0) 0) ∧
    PortStatus s3 = PortStatus s2.
Proof.
  intros Hwf Hn Henv Hidle.
  destruct (note_on_then_idle n v1 c1 env envs s0) as (s2&Hrun&Hwf2&Hheld);
    [done..|].
  destruct (note_off_held n v2 c2 (PortStatus s0) 1 s2 Hheld)
    as (s3&Hoff&Htr&Hclr&Hmux&Husb&Hps); [done|].
  exists s2, s3.
  rewrite (note_active_held _ _ _ _ Hheld), (note_active_held _ _ _ _ Hclr).
  done.
Qed.

(** The scenario of the specification: Note-On 60 at mask 0b0001, the
    operator switches port 0 off and port 1 on (pins 2 and 3 pulled low),
    releases the buttons, and the Note-Off for 60 arrives. *)
Lemma note_off_routed_with_captured_mask_witness :
  ∃ s2 s3,
    run [midi_env (mkMsg MIDI_STATUS_NOTEON 1 60 100);
         poll_env [2; 3]; poll_env []] (boot_state 1) = Some s2 ∧
    note_active s2 60 = true ∧
    on_midi (mkMsg MIDI_STATUS_NOTEOFF 1 60 100) s2 = Some s3 ∧
    trace s3 = trace s2 ++ DigitalWrite PIN_LED0 LOW
                 :: SetPort_calls (PortStatus (boot_state 1))
                 ++ MidiSerial (sendNoteOff 60 100 1)
                 :: usb_calls (PortStatus (boot_state 1))
                      (Z.lor MIDI_STATUS_NOTEOFF 1) 60 100 ∧
    note_active s3 60 = false ∧
    mux_lines s3 = lines_of (PortStatus (boot_state 1)) ∧
    USBPort s3 = Z.b2z (Z.testbit (PortStatus (boot_state 1)) 0) ∧
    PortStatus s3 = PortStatus s2.
Proof.
  apply (note_off_routed_with_captured_mask 60 100 1 100 1
           (midi_env (mkMsg MIDI_STATUS_NOTEON 1 60 100))
           [poll_env [2; 3]; poll_env []] (boot_state 1)).
  - vm_compute. auto.
  - lia.
  - reflexivity.
  - repeat constructor.
Defined.

(** In that scenario the live mask at Note-Off time is 0b0010, and the
    Note-Off still goes out behind [SetPort(0b0001)], on both sinks. *)
Example scenario_note_off :
  ∃ s2 s3,
    run [midi_env (mkMsg MIDI_STATUS_NOTEON 1 60 100);
         poll_env [2; 3]; poll_env []] (boot_state 1) = Some s2 ∧
    PortStatus s2 = 2 ∧
    on_midi (mkMsg MIDI_STATUS_NOTEOFF 1 60 100) s2 = Some s3 ∧
    trace s3 = trace s2 ++
      [DigitalWrite PIN_LED0 LOW;
       DigitalWrite 18 1; DigitalWrite 19 0; DigitalWrite 20 0;
       DigitalWrite 21 0; DelayMicroseconds 10;
       MidiSerial (sendNoteOff 60 100 1);
       UsbSendMIDI (mkPacket 0x08 0x80 60 100); UsbFlush].
Proof. eexists _, _. by vm_compute. Qed.

(** C9. Note memory is keyed by the note number alone.  A Note-On for [n] on
    channel [c1] and, after any number of iterations without MIDI input, a
    Note-Off for [n] on another channel [c2]: the entry the Note-On wrote
    does not mention [c1]; the Note-Off finds it active, consumes it, is
    routed with the mask captured by the Note-On and is forwarded on
    channel [c2]. *)
Theorem note_memory_ignores_channel
    (n v1 c1 v2 c2 : Z) (env : LoopEnv) (envs : list LoopEnv) (s0 : State) :
  wf_state s0 → 0 ≤ n < 128 → c1 ≠ c2 →
  MIDI_read env = Some (mkMsg MIDI_STATUS_NOTEON c1 n v1) →
  Forall idle envs →
  ∃ s2 s3,
    run (env :: envs) s0 = Some s2 ∧
    arr_get (NoteMem s2) n = Some (mkNoteMemory 1 (PortStatus s0)) ∧
    on_midi (mkMsg MIDI_STATUS_NOTEOFF c2 n v2) s2 = Some s3 ∧
    arr_get (NoteMem s3) n = Some (mkNoteMemory 0 (PortStatus s0)) ∧
    trace s3 = trace s2 ++ DigitalWrite PIN_LED0 LOW
                 :: SetPort_calls (PortStatus s0)
                 ++ MidiSerial (sendNoteOff n v2 c2)
                 :: usb_calls (PortStatus s0) (Z.lor MIDI_STATUS_NOTEOFF c2) n v2 ∧
    serial_out (trace s3) = serial_out (trace s2) ++ [sendNoteOff n v2 c2].
Proof.
  intros Hwf Hn _ Henv Hidle.
  destruct (note_on_then_idle n v1 c1 env envs s0) as (s2&Hrun&Hwf2&Hheld);
    [done..|].
  destruct (note_off_held n v2 c2 (PortStatus s0) 1 s2 Hheld)
    as (s3&Hoff&Htr&Hclr&Hmux&Husb&Hps); [done|].
  exists s2, s3. repeat split; try done.
  rewrite Htr, serial_out_app. f_equal.
  unfold usb_calls. by destruct (Z.testbit (PortStatus s0) 0).
Qed.

Lemma note_memory_ignores_channel_witness :
  ∃ s2 s3,
    run [midi_env (mkMsg MIDI_STATUS_NOTEON 1 60 100); poll_env [3]]
        (boot_state 1) = Some s2 ∧
    arr_get (NoteMem s2) 60 = Some (mkNoteMemory 1 (PortStatus (boot_state 1))) ∧
    on_midi (mkMsg MIDI_STATUS_NOTEOFF 2 60 64) s2 = Some s3 ∧
    arr_get (NoteMem s3) 60 = Some (mkNoteMemory 0 (PortStatus (boot_state 1))) ∧
    trace s3 = trace s2 ++ DigitalWrite PIN_LED0 LOW
                 :: SetPort_calls (PortStatus (boot_state 1))
                 ++ MidiSerial (sendNoteOff 60 64 2)
                 :: usb_calls (PortStatus (boot_state 1))
                      (Z.lor MIDI_STATUS_NOTEOFF 2) 60 64 ∧
    serial_out (trace s3) = serial_out (trace s2) ++ [sendNoteOff 60 64 2].
Proof.
  apply (note_memory_ignores_channel 60 100 1 64 2
           (midi_env (mkMsg MIDI_STATUS_NOTEON 1 60 100))
           [poll_env [3]] (boot_state 1)).
  - vm_compute. auto.
  - lia.
  - lia.
  - reflexivity.
  - repeat constructor.
Defined.

(** ** The drop policy for an unmatched Note-Off *)

Lemma note_idle_entry (s : State) (n : Z) :
  wf_state s → 0 ≤ n < 128 → note_active s n = false →
  ∃ e, arr_get (NoteMem s) n = Some e ∧ Status e = 0.
Proof.
  intros (_&Hnm&_) Hn Hact.
  destruct (arr_get_Some (NoteMem s) n) as [e He]; [lia|].
  exists e. split; [done|].
  unfold note_active in Hact. rewrite He in Hact.
  apply negb_false_iff, Z.eqb_eq in Hact. done.
Qed.

(** C2. A Note-Off for a note whose [NoteMem] entry is not active reaches
    neither sink: after the whole iteration of [loop()] that receives it, the
    serial sink and the USB sink hold what they held before. *)
Theorem unmatched_note_off_dropped
    (n v c : Z) (env : LoopEnv) (s : State) :
  wf_state s → 0 ≤ n < 128 → note_active s n = false →
  MIDI_read env = Some (mkMsg MIDI_STATUS_NOTEOFF c n v) →
  ∃ s', loop env s = Some s' ∧
        serial_out (trace s') = serial_out (trace s) ∧
        usb_out (trace s') = usb_out (trace s).
Proof.
  intros Hwf Hn Hact Henv.
  destruct (note_idle_entry (blink s) n) as (e&He&Hst);
    [by apply wf_blink|done|by destruct s|].
  pose proof (route_NoteOff_idle (mkMsg MIDI_STATUS_NOTEOFF c n v) (blink s) e
                eq_refl He Hst) as Hoff.
  destruct (poll_safe_run_timers env (blink s)) as (s'&Hs'&Hf);
    [by apply wf_blink|].
  exists s'. split; [|split].
  - unfold loop. rewrite Henv. unfold andThen. by rewrite on_midi_eq, Hoff.
  - rewrite (pf_serial _ _ Hf). destruct s. unfold blink. run_proc.
    by rewrite serial_out_app, app_nil_r.
  - rewrite (pf_usb _ _ Hf). destruct s. unfold blink. run_proc.
    by rewrite usb_out_app, app_nil_r.
Qed.

Lemma unmatched_note_off_dropped_witness :
  ∃ s', loop (midi_env (mkMsg MIDI_STATUS_NOTEOFF 1 60 0)) (boot_state 1)
        = Some s' ∧
        serial_out (trace s') = serial_out (trace (boot_state 1)) ∧
        usb_out (trace s') = usb_out (trace (boot_state 1)).
Proof.
  apply (unmatched_note_off_dropped 60 0 1
           (midi_env (mkMsg MIDI_STATUS_NOTEOFF 1 60 0)) (boot_state 1)).
  - vm_compute. auto.
  - lia.
  - reflexivity.
  - reflexivity.
Defined.

(** C10. A suppressed Note-Off changes nothing.  The switch returns the state
    it was given, so [SetPort] is not called; and after the whole [if
    (MIDI.read())] block, [NoteMem] (with the captured port of the entry),
    [SustainPedal], the active port mask, the USB gate and the select lines,
    as well as the button state and the EEPROM, are what they were, the one
    call made being the activity LED's [digitalWrite(PIN_LED0, LOW)] that
    every message gets (with the start of its one-shot timer). *)
Theorem suppressed_note_off_changes_nothing (n v c : Z) (s : State) :
  wf_state s → 0 ≤ n < 128 → note_active s n = false →
  route (mkMsg MIDI_STATUS_NOTEOFF c n v) s = Some s ∧
  ∃ s', on_midi (mkMsg MIDI_STATUS_NOTEOFF c n v) s = Some s' ∧
        NoteMem s' = NoteMem s ∧
        SustainPedal s' = SustainPedal s ∧
        PortStatus s' = PortStatus s ∧
        USBPort s' = USBPort s ∧
        mux_lines s' = mux_lines s ∧
        ButtonStatus s' = ButtonStatus s ∧
        eeprom s' = eeprom s ∧
        trace s' = trace s ++ [DigitalWrite PIN_LED0 LOW].
Proof.
  intros Hwf Hn Hact. split.
  - destruct (note_idle_entry s n) as (e&He&Hst); [done..|].
    by eapply (route_NoteOff_idle (mkMsg MIDI_STATUS_NOTEOFF c n v)).
  - destruct (note_idle_entry (blink s) n) as (e&He&Hst);
      [by apply wf_blink|done|by destruct s|].
    exists (blink s). split.
    { rewrite on_midi_eq.
      by eapply (route_NoteOff_idle (mkMsg MIDI_STATUS_NOTEOFF c n v)). }
    repeat split; try by destruct s.
    apply mux_lines_pins. intros pin Hpin. destruct s. unfold blink. run_proc.
    apply lookup_insert_ne. unfold PIN_LED0, MuxPins in *. revert Hpin.
    rewrite !elem_of_cons, elem_of_nil. lia.
Qed.

Lemma suppressed_note_off_changes_nothing_witness :
  route (mkMsg MIDI_STATUS_NOTEOFF 1 60 0) (boot_state 5) = Some (boot_state 5) ∧
  ∃ s', on_midi (mkMsg MIDI_STATUS_NOTEOFF 1 60 0) (boot_state 5) = Some s' ∧
        NoteMem s' = NoteMem (boot_state 5) ∧
        SustainPedal s' = SustainPedal (boot_state 5) ∧
        PortStatus s' = PortStatus (boot_state 5) ∧
        USBPort s' = USBPort (boot_state 5) ∧
        mux_lines s' = mux_lines (boot_state 5) ∧
        ButtonStatus s' = ButtonStatus (boot_state 5) ∧
        eeprom s' = eeprom (boot_state 5) ∧
        trace s' = trace (boot_state 5) ++ [DigitalWrite PIN_LED0 LOW].
Proof.
  apply (suppressed_note_off_changes_nothing 60 0 1 (boot_state 5)).
  - vm_compute. auto.
  - lia.
  - reflexivity.
Defined.

(** ** Sustain memory: capture on pedal down, release on pedal up *)




(** Processing CC#64 with a value of 63 or less; the switch does not look at
    [SustainPedal[ch - 1].Status] here. *)
Lemma sustain_off_eq (ch v st port : Z) (s : State) :
  arr_get (SustainPedal s) (ch - 1) = Some (mkNoteMemory st port) → v ≤ 63 →
  ∃ s', on_midi (mkMsg MIDI_STATUS_CONTROLCHANGE ch 64 v) s = Some s' ∧
        trace s' = trace s ++ DigitalWrite PIN_LED0 LOW :: SetPort_calls port
                     ++ MidiSerial (sendControlChange 64 0 ch)
                     :: usb_calls port (Z.lor MIDI_STATUS_CONTROLCHANGE ch) 64 0 ∧
        arr_get (SustainPedal s') (ch - 1) = Some (mkNoteMemory 0 port) ∧
        (∀ ch', ch' ≠ ch →
           arr_get (SustainPedal s') (ch' - 1)
           = arr_get (SustainPedal s) (ch' - 1)) ∧
        NoteMem s' = NoteMem s ∧
        mux_lines s' = lines_of port ∧
        USBPort s' = Z.b2z (Z.testbit port 0) ∧
        PortStatus s' = PortStatus s.
Proof.
  intros He Hv.
  assert (arr_get (SustainPedal (blink s)) (ch - 1)
          = Some (mkNoteMemory st port)) as Heb by by destruct s.
  pose proof (route_sustain_off (mkMsg MIDI_STATUS_CONTROLCHANGE ch 64 v)
                (blink s) _ eq_refl eq_refl Hv Heb) as Hoff.
  cbn [getData1 getData2 getChannel Port] in Hoff.
  eexists. split; [by rewrite on_midi_eq|].
  split; [|split; [|split; [|split; [|split; [|split]]]]].
  - destruct s. unfold forwarded, blink. run_proc. by rewrite <- app_assoc.
  - unfold forwarded.
    cbn [SustainPedal with_trace with_pins with_USBPort with_SustainPedal].
    by erewrite arr_get_insert_eq by exact Heb.
  - intros ch' Hne. unfold forwarded.
    cbn [SustainPedal with_trace with_pins with_USBPort with_SustainPedal].
    rewrite arr_get_insert_ne; [by destruct s| |lia].
    apply arr_get_range in He. lia.
  - by destruct s.
  - apply mux_lines_forwarded.
  - by destruct s.
  - by destruct s.
Qed.



(** In that scenario the live mask at pedal-up time is 0b0101 and the release
    goes out behind [SetPort(0b0100)]: serial sink only, the USB gate being
    bit 0 of the captured mask. *)
Example scenario_sustain_release :
  ∃ s2 s3,
    run [midi_env (mkMsg MIDI_STATUS_CONTROLCHANGE 1 64 127);
         poll_env [2]; poll_env [];
         midi_env (mkMsg MIDI_STATUS_NOTEON 1 60 100);
         midi_env (mkMsg MIDI_STATUS_CONTROLCHANGE 2 64 127)] (boot_state 4)
      = Some s2 ∧
    PortStatus s2 = 5 ∧
    on_midi (mkMsg MIDI_STATUS_CONTROLCHANGE 1 64 0) s2 = Some s3 ∧
    trace s3 = trace s2 ++
      [DigitalWrite PIN_LED0 LOW;
       DigitalWrite 18 0; DigitalWrite 19 0; DigitalWrite 20 1;
       DigitalWrite 21 0; DelayMicroseconds 10;
       MidiSerial (sendControlChange 64 0 1)].
Proof. eexists _, _. by vm_compute. Qed.

(** C4. The sustain release is not dropped when it is unmatched: the switch
    never reads [SustainPedal[ch - 1].Status].  Pedal down and up on channel
    1 at mask 0b0001 leave the entry inactive; a second pedal-up is then
    forwarded all the same, behind [SetPort(0b0001)], to the serial sink and
    to the USB sink. *)
Theorem unmatched_sustain_release_is_forwarded :
  ∃ s s',
    run [midi_env (mkMsg MIDI_STATUS_CONTROLCHANGE 1 64 127);
         midi_env (mkMsg MIDI_STATUS_CONTROLCHANGE 1 64 0)] (boot_state 1)
      = Some s ∧
    sustain_active s 1 = false ∧
    on_midi (mkMsg MIDI_STATUS_CONTROLCHANGE 1 64 0) s = Some s' ∧
    serial_out (trace s') = serial_out (trace s) ++ [sendControlChange 64 0 1] ∧
    usb_out (trace s') = usb_out (trace s) ++ [mkPacket 0x0B 0xB0 64 0].
Proof. eexists _, _. by vm_compute. Qed.

(** Whatever the state of the entry, a CC#64 below 64 reaches the serial
    sink. *)
Lemma sustain_release_always_forwarded (ch v : Z) (s : State) :
  wf_state s → 1 ≤ ch ≤ 16 → v ≤ 63 →
  ∃ s', on_midi (mkMsg MIDI_STATUS_CONTROLCHANGE ch 64 v) s = Some s' ∧
        serial_out (trace s') = serial_out (trace s) ++ [sendControlChange 64 0 ch].
Proof.
  intros (_&_&Hsp) Hch Hv.
  destruct (arr_get_Some (SustainPedal s) (ch - 1)) as [[st port] He]; [lia|].
  destruct (sustain_off_eq ch v st port s He Hv) as (s'&Hs'&Htr&_).
  exists s'. split; [done|].
  rewrite Htr, serial_out_app. f_equal.
  unfold usb_calls. by destruct (Z.testbit port 0).
Qed.

(** ** The two sinks *)

Lemma serial_out_forwarded (port : Z) (msg : SerialMsg) (b1 b2 b3 : Z)
    (tr : list Effect) :
  serial_out (tr ++ SetPort_calls port ++ MidiSerial msg :: usb_calls port b1 b2 b3)
  = serial_out tr ++ [msg].
Proof.
  rewrite serial_out_app. f_equal.
  unfold usb_calls. by destruct (Z.testbit port 0).
Qed.

Lemma usb_out_forwarded (port : Z) (msg : SerialMsg) (b1 b2 b3 : Z)
    (tr : list Effect) :
  usb_out (tr ++ SetPort_calls port ++ MidiSerial msg :: usb_calls port b1 b2 b3)
  = usb_out tr ++ (if Z.testbit port 0 then [usb_event b1 b2 b3] else []).
Proof.
  rewrite usb_out_app. f_equal.
  unfold usb_calls. by destruct (Z.testbit port 0).
Qed.

Lemma forwards_intro (m : MidiMessage) (s s0 : State) (port : Z)
    (msg : SerialMsg) (b1 b2 b3 : Z) :
  route m (blink s) = Some (forwarded port msg b1 b2 b3 s0) →
  trace s0 = trace s ++ [DigitalWrite PIN_LED0 LOW] →
  forwards m s port msg b1 b2 b3.
Proof.
  intros Hr Htr. eexists. split; [rewrite on_midi_eq; exact Hr|].
  unfold forwarded. cbn [trace with_trace]. rewrite Htr.
  split; [|split].
  - by rewrite <- app_assoc.
  - rewrite serial_out_forwarded, serial_out_app. by rewrite app_nil_r.
  - rewrite usb_out_forwarded, usb_out_app. by rewrite app_nil_r.
Qed.

Lemma swallows_intro (m : MidiMessage) (s : State) :
  route m (blink s) = Some (blink s) → swallows m s.
Proof.
  intros Hr. eexists. split; [rewrite on_midi_eq; exact Hr|].
  change (trace (blink s)) with (trace s ++ [DigitalWrite PIN_LED0 LOW]).
  split; [reflexivity|].
  rewrite serial_out_app, usb_out_app. by rewrite !app_nil_r.
Qed.

(** C5. Every message the MIDI library delivers is processed, and what
    reaches the two sinks is fixed by the message and one mask.  A Note-On, a
    CC#64 of 64 or more, any other controller, a program change, a channel
    pressure and a pitch bend go out behind [SetPort(PortStatus)]; a Note-Off
    of a held note and a CC#64 below 64 go out behind [SetPort] of the mask
    stored in their table entry.  In each case the serial sink receives the
    message (CC#64 with its value forced to 127 or 0, pitch bend reassembled
    from its two data bytes) whatever the mask, and the USB sink receives the
    packet of the same status and data bytes when bit 0 of that very mask is
    1 and nothing when it is 0.  A Note-Off of a note that is not held and a
    message of any other type reach neither sink. *)
Theorem usb_sink_gated_by_bit0 (m : MidiMessage) (s : State) :
  wf_state s → valid_msg m →
  (getType m = MIDI_STATUS_NOTEON →
   forwards m s (PortStatus s)
     (sendNoteOn (getData1 m) (getData2 m) (getChannel m))
     (Z.lor MIDI_STATUS_NOTEON (getChannel m)) (getData1 m) (getData2 m)) ∧
  (getType m = MIDI_STATUS_NOTEOFF →
   ∃ e, arr_get (NoteMem s) (getData1 m) = Some e ∧
     if Status e =? 0 then swallows m s
     else forwards m s (Port e)
            (sendNoteOff (getData1 m) (getData2 m) (getChannel m))
            (Z.lor MIDI_STATUS_NOTEOFF (getChannel m))
            (getData1 m) (getData2 m)) ∧
  (getType m = MIDI_STATUS_CONTROLCHANGE → getData1 m = 64 →
   63 < getData2 m →
   forwards m s (PortStatus s) (sendControlChange 64 127 (getChannel m))
     (Z.lor MIDI_STATUS_CONTROLCHANGE (getChannel m)) 64 127) ∧
  (getType m = MIDI_STATUS_CONTROLCHANGE → getData1 m = 64 →
   getData2 m ≤ 63 →
   ∃ e, arr_get (SustainPedal s) (getChannel m - 1) = Some e ∧
     forwards m s (Port e) (sendControlChange 64 0 (getChannel m))
       (Z.lor MIDI_STATUS_CONTROLCHANGE (getChannel m)) 64 0) ∧
  (getType m = MIDI_STATUS_CONTROLCHANGE → getData1 m ≠ 64 →
   forwards m s (PortStatus s)
     (sendControlChange (getData1 m) (getData2 m) (getChannel m))
     (Z.lor MIDI_STATUS_CONTROLCHANGE (getChannel m))
     (getData1 m) (getData2 m)) ∧
  (getType m = MIDI_STATUS_PROGRAMCHANGE →
   forwards m s (PortStatus s)
     (sendProgramChange (getData1 m) (getChannel m))
     (Z.lor MIDI_STATUS_PROGRAMCHANGE (getChannel m))
     (getData1 m) (getData2 m)) ∧
  (getType m = MIDI_STATUS_CHANNELPRESSURE →
   forwards m s (PortStatus s)
     (sendAfterTouch (getData1 m) (getChannel m))
     (Z.lor MIDI_STATUS_CHANNELPRESSURE (getChannel m))
     (getData1 m) (getData2 m)) ∧
  (getType m = MIDI_STATUS_PITCHBEND →
   forwards m s (PortStatus s)
     (sendPitchBend
        (to_int (to_int (getData1 m + to_int (Z.shiftl (getData2 m) 7))
                 - 8192))
        (getChannel m))
     (Z.lor MIDI_STATUS_PITCHBEND (getChannel m))
     (getData1 m) (getData2 m)) ∧
  (getType m ∉ routed_types → swallows m s).
Proof.
  intros (_&Hnm&Hsp) (Hch&Hd1&Hd2).
  destruct (arr_get_Some (NoteMem s) (getData1 m)) as [e He]; [lia|].
  destruct (arr_get_Some (SustainPedal s) (getChannel m - 1)) as [p Hp]; [lia|].
  assert (arr_get (NoteMem (blink s)) (getData1 m) = Some e) as Heb
    by exact He.
  assert (arr_get (SustainPedal (blink s)) (getChannel m - 1) = Some p) as Hpb
    by exact Hp.
  split; [|split; [|split; [|split; [|split; [|split; [|split; [|split]]]]]]].
  - intros Hty.
    exact (forwards_intro _ _ _ _ _ _ _ _
             (route_NoteOn m (blink s) e Hty Heb) eq_refl).
  - intros Hty. exists e. split; [exact He|].
    destruct (Z.eqb_spec (Status e) 0) as [Hst|Hst].
    + exact (swallows_intro _ _ (route_NoteOff_idle m (blink s) e Hty Heb Hst)).
    + exact (forwards_intro _ _ _ _ _ _ _ _
               (route_NoteOff_held m (blink s) e Hty Heb Hst) eq_refl).
  - intros Hty H64 Hv.
    exact (forwards_intro _ _ _ _ _ _ _ _
             (route_sustain_on m (blink s) p Hty H64 Hv Hpb) eq_refl).
  - intros Hty H64 Hv. exists p. split; [exact Hp|].
    exact (forwards_intro _ _ _ _ _ _ _ _
             (route_sustain_off m (blink s) p Hty H64 Hv Hpb) eq_refl).
  - intros Hty H64.
    exact (forwards_intro _ _ _ _ _ _ _ _
             (route_ControlChange m (blink s) Hty H64) eq_refl).
  - intros Hty.
    exact (forwards_intro _ _ _ _ _ _ _ _
             (route_ProgramChange m (blink s) Hty) eq_refl).
  - intros Hty.
    exact (forwards_intro _ _ _ _ _ _ _ _
             (route_ChannelPressure m (blink s) Hty) eq_refl).
  - intros Hty.
    exact (forwards_intro _ _ _ _ _ _ _ _
             (route_PitchBend m (blink s) Hty) eq_refl).
  - intros Hty. exact (swallows_intro _ _ (route_ignored m (blink s) Hty)).
Qed.

(** A program change on channel 3 at mask 0b0110 (bit 0 clear) and at mask
    0b0111 (bit 0 set). *)
Lemma usb_sink_gated_by_bit0_witness :
  forwards (mkMsg MIDI_STATUS_PROGRAMCHANGE 3 17 0) (boot_state 6) 6
    (sendProgramChange 17 3) (Z.lor MIDI_STATUS_PROGRAMCHANGE 3) 17 0 ∧
  forwards (mkMsg MIDI_STATUS_PROGRAMCHANGE 3 17 0) (boot_state 7) 7
    (sendProgramChange 17 3) (Z.lor MIDI_STATUS_PROGRAMCHANGE 3) 17 0.
Proof.
  split.
  - destruct (usb_sink_gated_by_bit0
                (mkMsg MIDI_STATUS_PROGRAMCHANGE 3 17 0) (boot_state 6))
      as (_&_&_&_&_&Hpc&_).
    + vm_compute. auto.
    + unfold valid_msg. simpl. lia.
    + exact (Hpc eq_refl).
  - destruct (usb_sink_gated_by_bit0
                (mkMsg MIDI_STATUS_PROGRAMCHANGE 3 17 0) (boot_state 7))
      as (_&_&_&_&_&Hpc&_).
    + vm_compute. auto.
    + unfold valid_msg. simpl. lia.
    + exact (Hpc eq_refl).
Defined.

(** A program change at mask 0b0110 goes to the serial sink alone; at mask
    0b0111 it goes to both. *)
Example program_change_usb_gate :
  (∃ s', on_midi (mkMsg MIDI_STATUS_PROGRAMCHANGE 3 17 0) (boot_state 6) = Some s'
         ∧ serial_out (trace s') = [sendProgramChange 17 3]
         ∧ usb_out (trace s') = []) ∧
  (∃ s', on_midi (mkMsg MIDI_STATUS_PROGRAMCHANGE 3 17 0) (boot_state 7) = Some s'
         ∧ serial_out (trace s') = [sendProgramChange 17 3]
         ∧ usb_out (trace s') = [mkPacket 0x0C 0xC2 17 0]).
Proof. split; eexists; by vm_compute. Qed.

(** ** Channel numbering at the USB boundary *)

(** For channels 1 to 15 the packet carries the status of the message and
    the channel minus one. *)
Lemma usb_event_channel (st ch d1 d2 : Z) :
  st ∈ routed_types → 1 ≤ ch ≤ 15 → 0 ≤ d1 < 128 → 0 ≤ d2 < 128 →
  usb_event (Z.lor st ch) d1 d2
  = mkPacket (Z.shiftr st 4) (Z.lor st (ch - 1)) d1 d2.
Proof.
  intros Hst Hch Hd1 Hd2. unfold usb_event.
  rewrite (to_byte_id d1), (to_byte_id d2) by lia.
  assert (ch = 1 ∨ ch = 2 ∨ ch = 3 ∨ ch = 4 ∨ ch = 5 ∨ ch = 6 ∨ ch = 7 ∨
          ch = 8 ∨ ch = 9 ∨ ch = 10 ∨ ch = 11 ∨ ch = 12 ∨ ch = 13 ∨
          ch = 14 ∨ ch = 15) as Hin by lia.
  unfold routed_types in Hst. revert Hst Hin. clear.
  rewrite !elem_of_cons, !elem_of_nil.
  intros Hst Hin.
  repeat (destruct Hst as [->|Hst]); try done;
    repeat (destruct Hin as [->|Hin]); by subst.
Qed.

(** On channel 16 the status byte of the packet is 0xFF for every message
    type: the low nibble of [status | 16] is empty. *)
Lemma usb_event_channel_16 (st d1 d2 : Z) :
  st ∈ routed_types → byte1 (usb_event (Z.lor st 16) d1 d2) = 0xFF.
Proof.
  unfold routed_types. rewrite !elem_of_cons, !elem_of_nil.
  intros Hst. repeat (destruct Hst as [->|Hst]); done.
Qed.

(** C6. Channel 16 is not translated.  A Note-On on channel 16 at mask
    0b0001: the serial sink is given channel 16, and the USB packet carries
    the status byte 0xFF, where channel 15 of a Note-On is 0x9F.  The status
    OR-ed with 16 has an empty low nibble, and subtracting one from it wraps
    the [byte] to 0xFF. *)
Theorem usb_channel_16_not_translated :
  ∃ s', on_midi (mkMsg MIDI_STATUS_NOTEON 16 60 100) (boot_state 1) = Some s' ∧
        serial_out (trace s') = [sendNoteOn 60 100 16] ∧
        usb_out (trace s') = [mkPacket 0x09 0xFF 60 100] ∧
        mkPacket 0x09 0xFF 60 100
        ≠ mkPacket (Z.shiftr MIDI_STATUS_NOTEON 4)
                   (Z.lor MIDI_STATUS_NOTEON (16 - 1)) 60 100.
Proof. eexists. by vm_compute. Qed.

(** ** Pitch bend *)

(** The 16-bit [int] arithmetic of the sketch does not wrap on 7-bit data. *)
Lemma pitch_bend_no_wrap (d1 d2 : Z) :
  0 ≤ d1 < 128 → 0 ≤ d2 < 128 →
  to_int (to_int (d1 + to_int (Z.shiftl d2 7)) - 8192)
  = d1 + Z.shiftl d2 7 - 8192.
Proof.
  intros Hd1 Hd2. rewrite Z.shiftl_mul_pow2 by lia.
  change (2 ^ 7) with 128.
  rewrite (to_int_id (d2 * 128)) by lia.
  rewrite (to_int_id (d1 + d2 * 128)) by lia.
  apply to_int_id. lia.
Qed.

(** C7. A pitch-bend message with 7-bit data bytes [d1] and [d2] reaches the
    serial sink as [sendPitchBend] of [d1 + (d2 << 7) - 8192], a value from
    -8192 to 8191; the centre, [d1 = 0x00] and [d2 = 0x40], gives 0. *)
Theorem pitch_bend_reassembled (ch d1 d2 : Z) (s : State) :
  0 ≤ d1 < 128 → 0 ≤ d2 < 128 →
  ∃ s', on_midi (mkMsg MIDI_STATUS_PITCHBEND ch d1 d2) s = Some s' ∧
        serial_out (trace s')
        = serial_out (trace s) ++ [sendPitchBend (d1 + Z.shiftl d2 7 - 8192) ch] ∧
        -8192 ≤ d1 + Z.shiftl d2 7 - 8192 < 8192.
Proof.
  intros Hd1 Hd2.
  pose proof (route_PitchBend (mkMsg MIDI_STATUS_PITCHBEND ch d1 d2) (blink s)
                eq_refl) as Hpb.
  cbn [getData1 getData2 getChannel] in Hpb.
  rewrite pitch_bend_no_wrap in Hpb by done.
  eexists. split; [by rewrite on_midi_eq|]. split.
  - unfold forwarded. cbn [trace with_trace].
    rewrite serial_out_forwarded. f_equal.
    destruct s. unfold blink. run_proc. by rewrite serial_out_app, app_nil_r.
  - rewrite Z.shiftl_mul_pow2 by lia. lia.
Qed.

Lemma pitch_bend_reassembled_witness :
  ∃ s', on_midi (mkMsg MIDI_STATUS_PITCHBEND 1 0x00 0x40) (boot_state 1)
        = Some s' ∧
        serial_out (trace s')
        = serial_out (trace (boot_state 1)) ++ [sendPitchBend 0 1] ∧
        -8192 ≤ 0 < 8192.
Proof.
  apply (pitch_bend_reassembled 1 0x00 0x40 (boot_state 1)); lia.
Defined.

(** ** The port buttons *)

Lemma lxor_char_range (p k : Z) :
  -128 ≤ p < 128 → k ∈ [1; 2; 4; 8] → -128 ≤ Z.lxor p k < 128.
Proof.
  intros Hp Hk.
  assert (Forall (λ q, Forall (λ j, -128 ≤ Z.lxor q j < 128) [1; 2; 4; 8])
                 (seqZ (-128) 256)) as Hall.
  { apply (bool_decide_unpack _). by vm_compute. }
  rewrite Forall_forall in Hall.
  specialize (Hall p). rewrite elem_of_seqZ in Hall.
  specialize (Hall ltac:(lia)). rewrite Forall_forall in Hall. by apply Hall.
Qed.

(** The state after [DoButton(b, LOW)] found button [b] released: bit [b] of
    the mask toggled, the LED of the button showing the new bit, the mask
    written to EEPROM cell 8. *)
Lemma DoButton_press (b old : Z) (s : State) :
  0 ≤ b < 4 → -128 ≤ PortStatus s < 128 →
  arr_get (ButtonStatus s) b = Some old → old ≠ LOW →
  ∃ led,
    arr_get ButtonLeds b = Some led ∧
    DoButton b LOW s =
    Some (mkState (<[Z.to_nat b := LOW]> (ButtonStatus s))
            (Z.lxor (PortStatus s) (Z.shiftl 1 b))
            (USBPort s) (NoteMem s) (SustainPedal s)
            (<[led := Z.b2z (Z.testbit (Z.lxor (PortStatus s) (Z.shiftl 1 b)) b)]>
               (pins s))
            (<[8 := to_byte (Z.lxor (PortStatus s) (Z.shiftl 1 b))]> (eeprom s))
            (ActivityTimer_running s)
            (trace s ++
               [DigitalWrite led
                  (Z.b2z (Z.testbit (Z.lxor (PortStatus s) (Z.shiftl 1 b)) b));
                EepromUpdate 8 (to_byte (Z.lxor (PortStatus s) (Z.shiftl 1 b)))])).
Proof.
  intros Hb Hp Hold Hne.
  assert (k_in : ∀ k, k = 1 ∨ k = 2 ∨ k = 4 ∨ k = 8 →
                      to_char (Z.lxor (PortStatus s) k) = Z.lxor (PortStatus s) k).
  { intros k Hk. apply to_char_id, lxor_char_range; [done|].
    rewrite !elem_of_cons. tauto. }
  unfold DoButton. rewrite Hold. cbn [mbind option_bind].
  rewrite (proj2 (Z.eqb_neq _ _) Hne).
  rewrite (arr_upd_Some _ _ _ _ Hold). cbn [mbind option_bind].
  change (LOW =? LOW) with true. cbv iota.
  change (to_char LOW) with LOW. rewrite (to_char_id b) by lia.
  assert (b = 0 ∨ b = 1 ∨ b = 2 ∨ b = 3) as [-> | [-> | [-> | ->]]] by lia.
  all: eexists; split; [reflexivity|].
  all: unfold andThen, SwitchPorts; eval_const_eqb; unfold andThen.
  all: cbn [mbind option_bind].
  all: match goal with
       | |- context [arr_get ButtonLeds ?i] =>
           let r := eval vm_compute in (arr_get ButtonLeds i) in
           change (arr_get ButtonLeds i) with r
       end.
  all: destruct s; run_proc; cbn [PortStatus] in k_in.
  all: rewrite land_shiftr_1_bit, k_in, level_b2z, <- app_assoc by lia.
  all: reflexivity.
Qed.

Lemma DoButton_release (b old : Z) (s : State) :
  arr_get (ButtonStatus s) b = Some old → old ≠ HIGH →
  DoButton b HIGH s
  = Some (with_ButtonStatus (<[Z.to_nat b := HIGH]> (ButtonStatus s)) s).
Proof.
  intros Hold Hne. unfold DoButton. rewrite Hold. cbn [mbind option_bind].
  rewrite (proj2 (Z.eqb_neq _ _) Hne).
  by rewrite (arr_upd_Some _ _ _ _ Hold).
Qed.

Lemma lxor_twice (p k : Z) : Z.lxor (Z.lxor p k) k = p.
Proof. by rewrite Z.lxor_assoc, Z.lxor_nilpotent, Z.lxor_0_r. Qed.

(** C8. Button [b] is pressed, released and pressed again, starting from any
    value of the port mask that a [char] holds.  The first press toggles bit
    [b]; the second press brings [PortStatus] back to its starting value, and
    that press writes the restored mask to EEPROM cell 8 again. *)
Theorem button_pressed_twice_restores_mask (b old : Z) (s : State) :
  0 ≤ b < 4 → -128 ≤ PortStatus s < 128 →
  arr_get (ButtonStatus s) b = Some old → old ≠ LOW →
  ∃ s1 s2 s3 led,
    DoButton b LOW s = Some s1 ∧
    PortStatus s1 = Z.lxor (PortStatus s) (Z.shiftl 1 b) ∧
    DoButton b HIGH s1 = Some s2 ∧
    DoButton b LOW s2 = Some s3 ∧
    PortStatus s3 = PortStatus s ∧
    arr_get ButtonLeds b = Some led ∧
    trace s3 = trace s2 ++
                 [DigitalWrite led (Z.b2z (Z.testbit (PortStatus s) b));
                  EepromUpdate 8 (to_byte (PortStatus s))] ∧
    eeprom s3 !! 8 = Some (to_byte (PortStatus s)).
Proof.
  intros Hb Hp Hold Hne.
  destruct (DoButton_press b old s Hb Hp Hold Hne) as (led&Hled&Hs1).
  set (s1 := mkState _ _ _ _ _ _ _ _ _) in Hs1.
  assert (arr_get (ButtonStatus s1) b = Some LOW) as Hb1.
  { subst s1. cbn [ButtonStatus]. by eapply arr_get_insert_eq. }
  pose proof (DoButton_release b LOW s1 Hb1 ltac:(done)) as Hs2.
  set (s2 := with_ButtonStatus _ s1) in Hs2.
  assert (arr_get (ButtonStatus s2) b = Some HIGH) as Hb2.
  { subst s2. cbn [ButtonStatus with_ButtonStatus]. by eapply arr_get_insert_eq. }
  assert (-128 ≤ PortStatus s2 < 128) as Hp2.
  { subst s2 s1. cbn [PortStatus with_ButtonStatus].
    apply lxor_char_range; [done|].
    assert (b = 0 ∨ b = 1 ∨ b = 2 ∨ b = 3) as [-> | [-> | [-> | ->]]] by lia;
      rewrite !elem_of_cons; tauto. }
  destruct (DoButton_press b HIGH s2 Hb Hp2 Hb2 ltac:(done)) as (led'&Hled'&Hs3).
  assert (led' = led) as -> by congruence.
  assert (PortStatus s2 = Z.lxor (PortStatus s) (Z.shiftl 1 b)) as Hps2 by done.
  rewrite Hps2, lxor_twice in Hs3.
  eexists s1, s2, _, led.
  split; [exact Hs1|]. split; [done|]. split; [exact Hs2|].
  split; [exact Hs3|]. repeat split; try done.
  cbn [eeprom]. apply lookup_insert_eq.
Qed.

Lemma button_pressed_twice_restores_mask_witness :
  ∃ s1 s2 s3 led,
    DoButton 2 LOW (boot_state 5) = Some s1 ∧
    PortStatus s1 = Z.lxor (PortStatus (boot_state 5)) (Z.shiftl 1 2) ∧
    DoButton 2 HIGH s1 = Some s2 ∧
    DoButton 2 LOW s2 = Some s3 ∧
    PortStatus s3 = PortStatus (boot_state 5) ∧
    arr_get ButtonLeds 2 = Some led ∧
    trace s3 = trace s2 ++
                 [DigitalWrite led (Z.b2z (Z.testbit (PortStatus (boot_state 5)) 2));
                  EepromUpdate 8 (to_byte (PortStatus (boot_state 5)))] ∧
    eeprom s3 !! 8 = Some (to_byte (PortStatus (boot_state 5))).
Proof.
  apply (button_pressed_twice_restores_mask 2 HIGH (boot_state 5)).
  - lia.
  - vm_compute. split; [discriminate|reflexivity].
  - reflexivity.
  - discriminate.
Defined.

(** Button 2 pressed twice at mask 0b0101: the mask goes to 0b0001 and back
    to 0b0101, and both presses write EEPROM cell 8. *)
Example button_2_twice :
  ∃ s3,
    (DoButton 2 LOW >> DoButton 2 HIGH >> DoButton 2 LOW) (boot_state 5)
    = Some s3 ∧
    PortStatus s3 = 5 ∧
    eeprom s3 !! 8 = Some 5 ∧
    drop (length (trace (boot_state 5))) (trace s3)
    = [DigitalWrite 8 0; EepromUpdate 8 1; DigitalWrite 8 1; EepromUpdate 8 5].
Proof. eexists. by vm_compute. Qed.

(** ** [setup()] *)

Lemma take_S_insert {A} (l : list A) (i : nat) (z : A) :
  (i < length l)%nat → take (S i) (<[i := z]> l) = take i l ++ [z].
Proof.
  intros Hi. rewrite (take_S_r _ _ z) by by apply list_lookup_insert_eq.
  by rewrite take_insert_ge.
Qed.

(** The loop that clears [NoteMem] from index [i] on. *)
Lemma clear_NoteMem_loop (n : nat) (i : Z) (s : State) :
  0 ≤ i → Z.of_nat (length (NoteMem s)) = i + Z.of_nat n →
  for_loop n i (λ k, store_NoteMem k (set_Status 0) >>
                     store_NoteMem k (set_Port 0)) s
  = Some (with_NoteMem (take (Z.to_nat i) (NoteMem s)
                          ++ replicate n (mkNoteMemory 0 0)) s).
Proof.
  revert i s.
  set (body := λ k, store_NoteMem k (set_Status 0) >> store_NoteMem k (set_Port 0)).
  induction n as [|n IH]; intros i s Hi Hlen.
  - cbn [for_loop replicate]. rewrite app_nil_r, take_ge by lia.
    by destruct s.
  - cbn [for_loop]. unfold andThen at 1.
    assert (body i s = store_NoteMem i (set_Status 0) s
                       ≫= store_NoteMem i (set_Port 0)) as -> by done.
    destruct (arr_get_Some (NoteMem s) i) as [e He]; [lia|].
    rewrite (store_NoteMem_eq _ _ _ _ He). cbn [mbind option_bind].
    erewrite store_NoteMem_eq by (by eapply arr_get_insert_eq).
    cbn [mbind option_bind].
    rewrite IH; [|lia|destruct s; cbn; rewrite !length_insert; cbn in Hlen; lia].
    destruct s. run_proc. cbn [NoteMem] in Hlen. f_equal. f_equal.
    rewrite list_insert_insert_eq.
    replace (Z.to_nat (i + 1)) with (S (Z.to_nat i)) by lia.
    rewrite take_S_insert by lia.
    by rewrite <- app_assoc.
Qed.

(** The loop that clears [SustainPedal] from index [i] on. *)
Lemma clear_SustainPedal_loop (n : nat) (i : Z) (s : State) :
  0 ≤ i → Z.of_nat (length (SustainPedal s)) = i + Z.of_nat n →
  for_loop n i (λ k, store_SustainPedal k (set_Status 0) >>
                     store_SustainPedal k (set_Port 0)) s
  = Some (with_SustainPedal (take (Z.to_nat i) (SustainPedal s)
                               ++ replicate n (mkNoteMemory 0 0)) s).
Proof.
  revert i s.
  set (body := λ k, store_SustainPedal k (set_Status 0) >> store_SustainPedal k (set_Port 0)).
  induction n as [|n IH]; intros i s Hi Hlen.
  - cbn [for_loop replicate]. rewrite app_nil_r, take_ge by lia.
    by destruct s.
  - cbn [for_loop]. unfold andThen at 1.
    assert (body i s = store_SustainPedal i (set_Status 0) s
                       ≫= store_SustainPedal i (set_Port 0)) as -> by done.
    destruct (arr_get_Some (SustainPedal s) i) as [e He]; [lia|].
    rewrite (store_SustainPedal_eq _ _ _ _ He). cbn [mbind option_bind].
    erewrite store_SustainPedal_eq by (by eapply arr_get_insert_eq).
    cbn [mbind option_bind].
    rewrite IH; [|lia|destruct s; cbn; rewrite !length_insert; cbn in Hlen; lia].
    destruct s. run_proc. cbn [SustainPedal] in Hlen. f_equal. f_equal.
    rewrite list_insert_insert_eq.
    replace (Z.to_nat (i + 1)) with (S (Z.to_nat i)) by lia.
    rewrite take_S_insert by lia.
    by rewrite <- app_assoc.
Qed.

Lemma for_loop_4 (body : Z → Proc) :
  for_loop 4 0 body = body 0 >> body 1 >> body 2 >> body 3 >> skip.
Proof. reflexivity. Qed.

(** Read the constant pin tables at the literal indices of the goal. *)
Ltac read_pin_tables :=
  repeat match goal with
  | |- context [arr_get ButtonPins ?i] =>
      let r := eval vm_compute in (arr_get ButtonPins i) in
      change (arr_get ButtonPins i) with r
  | |- context [arr_get ButtonLeds ?i] =>
      let r := eval vm_compute in (arr_get ButtonLeds i) in
      change (arr_get ButtonLeds i) with r
  | |- context [arr_get MuxPins ?i] =>
      let r := eval vm_compute in (arr_get MuxPins i) in
      change (arr_get MuxPins i) with r
  end.

(** [setup()] from any state whose arrays have their declared sizes. *)
Lemma setup_eq (s : State) :
  wf_state s →
  ∃ s', setup s = Some s' ∧
        PortStatus s' = to_char (EEPROM_read 8 s) ∧
        NoteMem s' = replicate 128 (mkNoteMemory 0 0) ∧
        SustainPedal s' = replicate 16 (mkNoteMemory 0 0) ∧
        ButtonStatus s' = ButtonStatus s ∧
        USBPort s' = USBPort s ∧
        eeprom s' = eeprom s ∧
        leds_mirror_mask s' ∧
        mux_lines s' = lines_of 0 ∧
        pins s' !! PIN_LED0 = Some HIGH.
Proof.
  intros (Hbs&Hnm&Hsp). unfold setup. rewrite for_loop_4.
  set (L16 := for_loop 16 _ _). set (L128 := for_loop 128 _ _).
  cbv beta. read_pin_tables.
  destruct s as [bs ps up nm sp pn ee tm tr].
  cbn [ButtonStatus NoteMem SustainPedal] in *.
  unfold ActivityLed. run_proc. eval_const_eqb.
  rewrite !land_shiftr_1_bit, !level_b2z by lia.
  subst L16. rewrite clear_SustainPedal_loop by (cbn; lia).
  subst L128. rewrite clear_NoteMem_loop by (cbn; lia).
  unfold EEPROM_read. cbn [eeprom].
  eexists. split; [reflexivity|].
  cbn [PortStatus NoteMem SustainPedal ButtonStatus USBPort eeprom pins
       with_NoteMem with_SustainPedal].
  change (Z.to_nat 0) with 0%nat. cbn [take app].
  split; [done|]. split; [done|]. split; [done|]. split; [done|].
  split; [done|]. split; [done|]. split; [|split].
  - intros i led Hled. cbn [pins PortStatus].
    assert (i = 0 ∨ i = 1 ∨ i = 2 ∨ i = 3) as [-> | [-> | [-> | ->]]]
      by (apply arr_get_range in Hled; cbn in Hled; lia).
    all: injection Hled as <-; unfold PIN_LED0; by simplify_map_eq.
  - unfold mux_lines, lines_of, MuxPins, PIN_LED0.
    cbn [fmap list_fmap pins]. repeat f_equal; by simplify_map_eq.
  - unfold PIN_LED0. cbn [pins]. by simplify_map_eq.
Qed.

(** ** What stays true while the sketch runs *)

Lemma testbit_lxor_bit (p b i : Z) :
  0 ≤ b → 0 ≤ i →
  Z.testbit (Z.lxor p (Z.shiftl 1 b)) i = xorb (Z.testbit p i) (i =? b).
Proof.
  intros Hb Hi. rewrite Z.lxor_spec, Z.shiftl_1_l, Z.pow2_bits_eqb by lia.
  by rewrite (Z.eqb_sym b i).
Qed.

Lemma to_byte_to_char (v : Z) : 0 ≤ v < 256 → to_byte (to_char v) = v.
Proof.
  intros Hv. unfold to_byte, to_char.
  destruct (decide (v < 128)).
  - rewrite (Z.mod_small (v + 128)) by lia.
    replace (v + 128 - 128) with v by lia. by apply Z.mod_small.
  - replace (v + 128) with (v - 128 + 1 * 256) by lia.
    rewrite Z.mod_add, (Z.mod_small (v - 128)) by lia.
    replace (v - 128 - 128) with (v + (-1) * 256) by lia.
    rewrite Z.mod_add by lia. by apply Z.mod_small.
Qed.

Lemma to_char_to_byte (p : Z) : -128 ≤ p < 128 → to_char (to_byte p) = p.
Proof.
  intros Hp. unfold to_byte, to_char.
  destruct (decide (0 ≤ p)).
  - rewrite (Z.mod_small p) by lia. rewrite Z.mod_small; lia.
  - replace p with (p + 256 + (-1) * 256) at 1 by lia.
    rewrite Z.mod_add, (Z.mod_small (p + 256)) by lia.
    replace (p + 256 + 128) with (p + 128 + 1 * 256) by lia.
    rewrite Z.mod_add, Z.mod_small by lia. lia.
Qed.

Lemma to_char_range (v : Z) : -128 ≤ to_char v < 128.
Proof. unfold to_char. pose proof (Z.mod_pos_bound (v + 128) 256). lia. Qed.

Lemma preserves_skip (I : State → Prop) : preserves I skip.
Proof. intros s Hs. by exists s. Qed.

Lemma preserves_andThen (I : State → Prop) (p q : Proc) :
  preserves I p → preserves I q → preserves I (p >> q).
Proof.
  intros Hp Hq s Hs. destruct (Hp s Hs) as (s1&Hs1&HI1).
  destruct (Hq s1 HI1) as (s2&Hs2&HI2).
  exists s2. split; [|done]. unfold andThen. by rewrite Hs1.
Qed.

Lemma led_pin_cases (i led : Z) :
  arr_get ButtonLeds i = Some led →
  (i = 0 ∧ led = 6) ∨ (i = 1 ∧ led = 7) ∨ (i = 2 ∧ led = 8) ∨ (i = 3 ∧ led = 9).
Proof.
  intros Hled.
  assert (i = 0 ∨ i = 1 ∨ i = 2 ∨ i = 3) as [-> | [-> | [-> | ->]]]
    by (apply arr_get_range in Hled; cbn in Hled; lia).
  all: injection Hled as <-; lia.
Qed.

(** A state that differs from a running one in pins other than the LEDs of
    the buttons and the first select line, and in what the invariant does not
    mention, is running. *)
Lemma running_frame (s s' : State) :
  running s →
  length (ButtonStatus s') = length (ButtonStatus s) →
  length (NoteMem s') = length (NoteMem s) →
  length (SustainPedal s') = length (SustainPedal s) →
  PortStatus s' = PortStatus s → eeprom s' = eeprom s →
  USBPort s' = USBPort s →
  (∀ pin, pin ∈ [6; 7; 8; 9; 18] → pins s' !! pin = pins s !! pin) →
  running s'.
Proof.
  intros ((Hbs&Hnm&Hsp)&Hch&Hee&Hled&Hgate) Hbs' Hnm' Hsp' Hps' Hee' Hup' Hpins.
  split; [|split; [|split; [|split]]].
  - unfold wf_state. by rewrite Hbs', Hnm', Hsp'.
  - unfold mask_is_char. by rewrite Hps'.
  - unfold mask_persisted, EEPROM_read. by rewrite Hee', Hps'.
  - intros i led Hi. rewrite Hps'. rewrite Hpins; [by apply Hled|].
    destruct (led_pin_cases i led Hi) as [[_ ->]|[[_ ->]|[[_ ->]|[_ ->]]]];
      rewrite !elem_of_cons; tauto.
  - unfold gate_mirrors_line0, mux_lines, MuxPins in *.
    cbn [fmap list_fmap lookup list_lookup] in *.
    rewrite Hup', Hpins; [done|]. rewrite !elem_of_cons; tauto.
Qed.

Lemma running_blink (s : State) : running s → running (blink s).
Proof.
  intros Hs. apply (running_frame s); try by destruct s.
  intros pin Hpin. destruct s. unfold blink. run_proc.
  apply lookup_insert_ne. unfold PIN_LED0. revert Hpin.
  rewrite !elem_of_cons, elem_of_nil. lia.
Qed.

Lemma running_forwarded (port : Z) (msg : SerialMsg) (b1 b2 b3 : Z)
    (s0 s : State) :
  running s →
  length (ButtonStatus s0) = length (ButtonStatus s) →
  length (NoteMem s0) = length (NoteMem s) →
  length (SustainPedal s0) = length (SustainPedal s) →
  PortStatus s0 = PortStatus s → eeprom s0 = eeprom s → pins s0 = pins s →
  running (forwarded port msg b1 b2 b3 s0).
Proof.
  intros ((Hbs&Hnm&Hsp)&Hch&Hee&Hled&Hgate) Hbs' Hnm' Hsp' Hps' Hee' Hpn'.
  split; [|split; [|split; [|split]]].
  - destruct s0. unfold wf_state in *. cbn in *. lia.
  - destruct s0. unfold mask_is_char in *. cbn in *. lia.
  - destruct s0. unfold mask_persisted, EEPROM_read in *. cbn in *. congruence.
  - intros i led Hi.
    assert (pins (forwarded port msg b1 b2 b3 s0) !! led = pins s !! led) as ->.
    { destruct s0. unfold forwarded. run_proc. cbn [pins] in Hpn'. subst.
      apply mux_set_lookup. unfold MuxPins.
      destruct (led_pin_cases i led Hi) as [[_ ->]|[[_ ->]|[[_ ->]|[_ ->]]]];
        rewrite !elem_of_cons, elem_of_nil; lia. }
    assert (PortStatus (forwarded port msg b1 b2 b3 s0) = PortStatus s) as ->
      by by destruct s0.
    by apply Hled.
  - unfold gate_mirrors_line0. rewrite mux_lines_forwarded.
    by destruct s0.
Qed.

Lemma running_routed (m : MidiMessage) (s s' : State) :
  running s → routed m s s' → running s'.
Proof.
  intros Hs Hr. destruct Hr; [done|..];
    apply (running_forwarded _ _ _ _ _ _ s); try done;
    destruct s; cbn; by rewrite ?length_insert.
Qed.

(** The three things [DoButton] can do. *)
Lemma DoButton_cases (b st : Z) (s : State) :
  0 ≤ b < 4 → wf_state s →
  ∃ s', DoButton b st s = Some s' ∧
    (s' = s ∨
     (st ≠ LOW ∧
      s' = with_ButtonStatus (<[Z.to_nat b := to_char st]> (ButtonStatus s)) s) ∨
     (st = LOW ∧ ∃ old, arr_get (ButtonStatus s) b = Some old ∧ old ≠ LOW)).
Proof.
  intros Hb Hwf.
  destruct (DoButton_total b st s Hb Hwf) as [s' Hs']. exists s'.
  split; [done|]. revert Hs'. unfold DoButton.
  destruct (arr_get (ButtonStatus s) b) as [old|] eqn:Hold; [|done].
  cbn [mbind option_bind].
  destruct (Z.eqb_spec old st) as [->|Hne]; [intros [= <-]; by left|].
  rewrite (arr_upd_Some _ _ _ _ Hold). cbn [mbind option_bind].
  destruct (Z.eqb_spec st LOW) as [->|Hst].
  - intros _. right. right. split; [done|]. by exists old.
  - intros [= <-]. right. by left.
Qed.

Lemma running_DoButton (b st : Z) :
  0 ≤ b < 4 → preserves running (DoButton b st).
Proof.
  intros Hb s Hs. pose proof Hs as (Hwf&Hch&Hee&Hled&Hgate).
  destruct (DoButton_cases b st s Hb Hwf) as (s'&Hs'&[->|[[_ ->]|[-> Hold]]]).
  - by exists s.
  - eexists. split; [done|].
    apply (running_frame s); try done; destruct s; cbn; by rewrite ?length_insert.
  - destruct Hold as (old&Hold&Hne).
    destruct (DoButton_press b old s Hb Hch Hold Hne) as (led&Hbled&Heq).
    rewrite Heq in Hs'. injection Hs' as <-. eexists. split; [exact Heq|].
    destruct Hwf as (Hbs&Hnm&Hsp).
    split; [|split; [|split; [|split]]].
    + unfold wf_state. cbn [ButtonStatus NoteMem SustainPedal].
      by rewrite length_insert.
    + unfold mask_is_char. cbn [PortStatus].
      apply lxor_char_range; [done|].
      assert (b = 0 ∨ b = 1 ∨ b = 2 ∨ b = 3) as [-> | [-> | [-> | ->]]] by lia;
        rewrite !elem_of_cons; tauto.
    + unfold mask_persisted, EEPROM_read. cbn [eeprom PortStatus].
      by rewrite lookup_insert_eq.
    + intros i led' Hi. cbn [pins PortStatus].
      destruct (decide (i = b)) as [->|Hib].
      * assert (led' = led) as -> by congruence. apply lookup_insert_eq.
      * rewrite lookup_insert_ne.
        -- rewrite (Hled i led' Hi), testbit_lxor_bit.
           ++ by rewrite (proj2 (Z.eqb_neq i b) Hib), xorb_false_r.
           ++ lia.
           ++ apply arr_get_range in Hi. lia.
        -- destruct (led_pin_cases i led' Hi) as [[-> ->]|[[-> ->]|[[-> ->]|[-> ->]]]];
             destruct (led_pin_cases b led Hbled)
               as [[-> ->]|[[-> ->]|[[-> ->]|[-> ->]]]]; lia.
    + unfold gate_mirrors_line0, mux_lines, MuxPins in *.
      cbn [fmap list_fmap lookup list_lookup pins USBPort] in *.
      rewrite lookup_insert_ne; [done|].
      destruct (led_pin_cases b led Hbled) as [[_ ->]|[[_ ->]|[[_ ->]|[_ ->]]]]; lia.
Qed.

Lemma running_CheckButtons (digitalRead : Z → Z) :
  preserves running (CheckButtons digitalRead).
Proof.
  rewrite CheckButtons_unroll.
  repeat apply preserves_andThen; try apply preserves_skip;
    apply running_DoButton; lia.
Qed.

Lemma running_run_timers (env : LoopEnv) : preserves running (run_timers env).
Proof.
  unfold run_timers. apply preserves_andThen.
  { destruct (ButtonTimer_due env);
      [apply running_CheckButtons|apply preserves_skip]. }
  intros s Hs.
  destruct (ActivityTimer_running s && ActivityTimer_due env);
    [|by exists s].
  eexists. split; [reflexivity|].
  apply (running_frame s); try by destruct s.
  intros pin Hpin. destruct s. run_proc.
  apply lookup_insert_ne. unfold PIN_LED0. revert Hpin.
  rewrite !elem_of_cons, elem_of_nil. lia.
Qed.

Lemma running_on_midi (m : MidiMessage) :
  valid_msg m → preserves running (on_midi m).
Proof.
  intros Hm s Hs. apply running_blink in Hs. pose proof Hs as (Hwf&_).
  destruct (route_routed m (blink s) Hwf Hm) as (s'&Hs'&Hr).
  exists s'. split; [by rewrite on_midi_eq|]. by eapply running_routed.
Qed.

Lemma running_loop (env : LoopEnv) :
  valid_env env → preserves running (loop env).
Proof.
  intros Henv. unfold loop. apply preserves_andThen;
    [|apply running_run_timers].
  destruct (MIDI_read env) as [m|] eqn:Hm;
    [apply running_on_midi; by apply Henv|apply preserves_skip].
Qed.

Lemma running_run (envs : list LoopEnv) :
  Forall valid_env envs → preserves running (run envs).
Proof.
  induction 1 as [|env envs Henv _ IH]; cbn [run].
  - apply preserves_skip.
  - apply preserves_andThen; [by apply running_loop|exact IH].
Qed.

(** [setup()] establishes the invariant when the EEPROM holds bytes. *)
Lemma running_setup (rom : gmap Z Z) :
  rom_bytes rom →
  ∃ s, setup (power_on rom) = Some s ∧ running s.
Proof.
  intros Hrom.
  destruct (setup_eq (power_on rom)) as (s&Hs&Hps&Hnm&Hsp&Hbs&Hup&Hee&Hled&Hmux&_);
    [repeat split; reflexivity|].
  exists s. split; [exact Hs|]. clear Hs.
  split; [|split; [|split; [|split]]].
  - unfold wf_state. rewrite Hnm, Hsp, Hbs. repeat split; reflexivity.
  - unfold mask_is_char. rewrite Hps. apply to_char_range.
  - unfold mask_persisted, EEPROM_read at 1. rewrite Hee, Hps.
    unfold EEPROM_read. cbn [eeprom power_on].
    destruct (rom !! 8) as [v|] eqn:Hv; cbn [default].
    + symmetry. apply to_byte_to_char. by eapply Hrom.
    + done.
  - done.
  - unfold gate_mirrors_line0. by rewrite Hmux, Hup.
Qed.

Lemma valid_env_poll (pressed : list Z) : valid_env (poll_env pressed).
Proof. intros m Hm. discriminate Hm. Qed.

Lemma rom_bytes_singleton (addr v : Z) :
  0 ≤ v < 256 → rom_bytes {[ addr := v ]}.
Proof.
  intros Hv a w Hw. apply lookup_singleton_Some in Hw as [_ <-]. done.
Qed.

Lemma boot_and_run (rom : gmap Z Z) (envs : list LoopEnv) :
  rom_bytes rom → Forall valid_env envs →
  ∃ s, (setup >> run envs) (power_on rom) = Some s ∧ running s.
Proof.
  intros Hrom Henvs.
  destruct (running_setup rom Hrom) as (s0&Hs0&Hrun0).
  destruct (running_run envs Henvs s0 Hrun0) as (s&Hs&Hrun).
  exists s. split; [|exact Hrun]. unfold andThen. rewrite Hs0. exact Hs.
Qed.

Lemma replicate_inactive (n : nat) (i : Z) :
  match arr_get (replicate n (mkNoteMemory 0 0)) i with
  | Some e => negb (Status e =? 0)
  | None => false
  end = false.
Proof.
  destruct (arr_get _ i) as [e|] eqn:He; [|done].
  apply arr_get_elem, elem_of_replicate in He as [-> _]. done.
Qed.

(** X1. [setup()], from any state whose arrays have their sizes, returns
    with the mask read from EEPROM cell 8 (0xFF when the cell is erased) as
    the active mask, no note and no sustain pedal held in the memory tables,
    each button LED showing its bit of the mask, the four select lines low
    and the power LED on; the button state and the USB gate are not
    touched. *)
Theorem setup_restores_mask_and_clears_tables (s : State) :
  wf_state s →
  ∃ s', setup s = Some s' ∧
        PortStatus s' = to_char (EEPROM_read 8 s) ∧
        (∀ n, note_active s' n = false) ∧
        (∀ ch, sustain_active s' ch = false) ∧
        (∀ i led, arr_get ButtonLeds i = Some led →
                  pins s' !! led = Some (Z.b2z (Z.testbit (PortStatus s') i))) ∧
        mux_lines s' = lines_of 0 ∧
        pins s' !! PIN_LED0 = Some HIGH ∧
        ButtonStatus s' = ButtonStatus s ∧
        USBPort s' = USBPort s.
Proof.
  intros Hwf.
  destruct (setup_eq s Hwf) as (s'&Hs'&Hps&Hnm&Hsp&Hbs&Hup&_&Hled&Hmux&Hl0).
  exists s'. split; [exact Hs'|]. clear Hs'.
  split; [exact Hps|]. split; [|split].
  - intros n. unfold note_active. rewrite Hnm. apply replicate_inactive.
  - intros ch. unfold sustain_active. rewrite Hsp. apply replicate_inactive.
  - repeat split; assumption.
Qed.

(** A device whose EEPROM was never written boots with all four ports on. *)
Lemma setup_restores_mask_and_clears_tables_witness :
  ∃ s', setup (power_on ∅) = Some s' ∧
        PortStatus s' = to_char (EEPROM_read 8 (power_on ∅)) ∧
        (∀ n, note_active s' n = false) ∧
        (∀ ch, sustain_active s' ch = false) ∧
        (∀ i led, arr_get ButtonLeds i = Some led →
                  pins s' !! led = Some (Z.b2z (Z.testbit (PortStatus s') i))) ∧
        mux_lines s' = lines_of 0 ∧
        pins s' !! PIN_LED0 = Some HIGH ∧
        ButtonStatus s' = ButtonStatus (power_on ∅) ∧
        USBPort s' = USBPort (power_on ∅).
Proof.
  apply (setup_restores_mask_and_clears_tables (power_on ∅)).
  vm_compute. auto.
Defined.

(** X2. The active mask survives a power cycle.  Boot with an EEPROM of
    bytes, run [loop()] any number of times on any well-formed traffic and
    any button activity, then cut the power: [setup()] on the EEPROM as it
    was left restores the mask that was active. *)
Theorem mask_survives_power_cycle (rom : gmap Z Z) (envs : list LoopEnv) :
  rom_bytes rom → Forall valid_env envs →
  ∃ s s', (setup >> run envs) (power_on rom) = Some s ∧
          setup (power_on (eeprom s)) = Some s' ∧
          PortStatus s' = PortStatus s.
Proof.
  intros Hrom Henvs.
  destruct (boot_and_run rom envs Hrom Henvs) as (s&Hs&_&Hch&Hee&_).
  destruct (setup_eq (power_on (eeprom s))) as (s'&Hs'&Hps&_);
    [repeat split; reflexivity|].
  exists s, s'. split; [exact Hs|]. split; [exact Hs'|]. clear Hs Hs'.
  rewrite Hps. unfold mask_persisted, EEPROM_read in *.
  cbn [eeprom power_on]. rewrite Hee. by apply to_char_to_byte.
Qed.

Lemma mask_survives_power_cycle_witness :
  ∃ s s', (setup >> run [poll_env [2; 3]; poll_env []]) (power_on {[ 8 := 5 ]})
          = Some s ∧
          setup (power_on (eeprom s)) = Some s' ∧
          PortStatus s' = PortStatus s.
Proof.
  apply (mask_survives_power_cycle {[ 8 := 5 ]} [poll_env [2; 3]; poll_env []]).
  - apply rom_bytes_singleton. lia.
  - repeat (apply Forall_cons_2; [apply valid_env_poll|]). apply Forall_nil_2.
Defined.

(** X3. The button LEDs always show the active mask: after boot and any
    number of iterations of [loop()], the LED of button [i] is at the level
    of bit [i] of [PortStatus]. *)
Theorem leds_always_show_mask (rom : gmap Z Z) (envs : list LoopEnv) :
  rom_bytes rom → Forall valid_env envs →
  ∃ s, (setup >> run envs) (power_on rom) = Some s ∧
       ∀ i led, arr_get ButtonLeds i = Some led →
                pins s !! led = Some (Z.b2z (Z.testbit (PortStatus s) i)).
Proof.
  intros Hrom Henvs.
  destruct (boot_and_run rom envs Hrom Henvs) as (s&Hs&_&_&_&Hled&_).
  exists s. split; [exact Hs|exact Hled].
Qed.

Lemma leds_always_show_mask_witness :
  ∃ s, (setup >> run [poll_env [2; 3]; poll_env []]) (power_on {[ 8 := 5 ]})
       = Some s ∧
       ∀ i led, arr_get ButtonLeds i = Some led →
                pins s !! led = Some (Z.b2z (Z.testbit (PortStatus s) i)).
Proof.
  apply (leds_always_show_mask {[ 8 := 5 ]} [poll_env [2; 3]; poll_env []]).
  - apply rom_bytes_singleton. lia.
  - repeat (apply Forall_cons_2; [apply valid_env_poll|]). apply Forall_nil_2.
Defined.

(** X4. The USB output mirrors MIDI output 1: after boot and any number of
    iterations of [loop()], the USB gate [USBPort] equals the level of the
    first select line. *)
Theorem usb_gate_always_mirrors_port_1 (rom : gmap Z Z) (envs : list LoopEnv) :
  rom_bytes rom → Forall valid_env envs →
  ∃ s, (setup >> run envs) (power_on rom) = Some s ∧
       mux_lines s !! 0%nat = Some (Some (USBPort s)).
Proof.
  intros Hrom Henvs.
  destruct (boot_and_run rom envs Hrom Henvs) as (s&Hs&_&_&_&_&Hgate).
  exists s. split; [exact Hs|exact Hgate].
Qed.

Lemma usb_gate_always_mirrors_port_1_witness :
  ∃ s, (setup >> run [midi_env (mkMsg MIDI_STATUS_NOTEON 1 60 100);
                      poll_env [2]])
         (power_on {[ 8 := 5 ]}) = Some s ∧
       mux_lines s !! 0%nat = Some (Some (USBPort s)).
Proof.
  apply (usb_gate_always_mirrors_port_1 {[ 8 := 5 ]}
           [midi_env (mkMsg MIDI_STATUS_NOTEON 1 60 100); poll_env [2]]).
  - apply rom_bytes_singleton. lia.
  - apply Forall_cons_2; [intros m [= <-]; unfold valid_msg; simpl; lia|].
    apply Forall_cons_2; [apply valid_env_poll|]. apply Forall_nil_2.
Defined.

(** X5. No array is indexed out of bounds: from a state whose arrays have
    their declared sizes, any number of iterations of [loop()] on messages
    with a channel from 1 to 16 and 7-bit data return, and the sizes are
    kept. *)
Theorem run_stays_in_bounds (envs : list LoopEnv) (s : State) :
  wf_state s → Forall valid_env envs →
  ∃ s', run envs s = Some s' ∧ wf_state s'.
Proof.
  intros Hwf Henvs. revert s Hwf.
  induction Henvs as [|env envs Henv _ IH]; intros s Hwf.
  - by exists s.
  - destruct (loop_total env s Hwf Henv) as (s1&Hs1&Hwf1).
    destruct (IH s1 Hwf1) as (s2&Hs2&Hwf2).
    exists s2. split; [|done]. cbn [run]. unfold andThen. by rewrite Hs1.
Qed.

Lemma run_stays_in_bounds_witness :
  ∃ s', run [midi_env (mkMsg MIDI_STATUS_NOTEON 16 127 127);
             midi_env (mkMsg MIDI_STATUS_CONTROLCHANGE 16 64 0);
             poll_env [5]] (boot_state 255) = Some s' ∧ wf_state s'.
Proof.
  apply (run_stays_in_bounds
           [midi_env (mkMsg MIDI_STATUS_NOTEON 16 127 127);
            midi_env (mkMsg MIDI_STATUS_CONTROLCHANGE 16 64 0);
            poll_env [5]] (boot_state 255)).
  - vm_compute. auto.
  - apply Forall_cons_2; [intros m [= <-]; unfold valid_msg; simpl; lia|].
    apply Forall_cons_2; [intros m [= <-]; unfold valid_msg; simpl; lia|].
    apply Forall_cons_2; [apply valid_env_poll|]. apply Forall_nil_2.
Defined.

(** ** The button poller, poll after poll *)

Lemma SwitchPorts_buttons (pin : Z) (s s' : State) :
  SwitchPorts pin s = Some s' → ButtonStatus s' = ButtonStatus s.
Proof.
  unfold SwitchPorts. unfold andThen.
  set (s1 := if pin =? 0 then _ else _).
  assert (∃ ps, s1 = Some (with_PortStatus ps s)) as [ps ->].
  { subst s1. repeat case_match; eauto. destruct s; eauto. }
  cbn [mbind option_bind].
  destruct (arr_get ButtonLeds pin) as [led|]; [|done].
  cbn [mbind option_bind]. destruct s. run_proc. by intros [= <-].
Qed.

(** [DoButton] leaves [status] in the slot of the button and the other slots
    alone. *)
Lemma DoButton_buttons (b st : Z) (s s' : State) :
  st = LOW ∨ st = HIGH →
  DoButton b st s = Some s' →
  ButtonStatus s' = <[Z.to_nat b := st]> (ButtonStatus s).
Proof.
  intros Hst. unfold DoButton.
  destruct (arr_get (ButtonStatus s) b) as [old|] eqn:Hold; [|done].
  cbn [mbind option_bind].
  destruct (Z.eqb_spec old st) as [->|Hne].
  { intros [= <-]. symmetry. apply list_insert_id.
    unfold arr_get in Hold. by destruct (0 <=? b). }
  rewrite (arr_upd_Some _ _ _ _ Hold). cbn [mbind option_bind].
  assert (to_char st = st) as -> by (by destruct Hst as [-> | ->]).
  destruct (st =? LOW); [|by intros [= <-]].
  unfold andThen.
  destruct (SwitchPorts _ _) as [s2|] eqn:Hsw; [|done].
  apply SwitchPorts_buttons in Hsw.
  cbn [mbind option_bind]. unfold EEPROM_update, emit. intros [= <-].
  transitivity (ButtonStatus s2); [by destruct s2|].
  rewrite Hsw. by destruct s.
Qed.

Lemma DoButton_same (b st : Z) (s : State) :
  arr_get (ButtonStatus s) b = Some st → DoButton b st s = Some s.
Proof.
  intros Hold. unfold DoButton. rewrite Hold. cbn [mbind option_bind].
  by rewrite Z.eqb_refl.
Qed.

(** X6. Edge detection: a poll that reads the levels the previous poll read
    changes nothing, so a button held down over many polls toggles its port
    once. *)
Theorem CheckButtons_same_levels_changes_nothing
    (digitalRead : Z → Z) (s : State) :
  wf_state s →
  (∀ pin, digitalRead pin = LOW ∨ digitalRead pin = HIGH) →
  ∃ s1, CheckButtons digitalRead s = Some s1 ∧
        CheckButtons digitalRead s1 = Some s1.
Proof.
  intros Hwf Hr.
  destruct (poll_safe_CheckButtons digitalRead s Hwf) as (s1&Hs1&_).
  exists s1. split; [done|].
  assert (ButtonStatus s1 = [digitalRead 2; digitalRead 3;
                             digitalRead 4; digitalRead 5]) as Hbs.
  { revert Hs1. rewrite CheckButtons_unroll. unfold andThen, skip.
    destruct (DoButton 0 _ s) as [sa|] eqn:Ha; [|done]. cbn [mbind option_bind].
    destruct (DoButton 1 _ sa) as [sb|] eqn:Hb; [|done]. cbn [mbind option_bind].
    destruct (DoButton 2 _ sb) as [sc|] eqn:Hc; [|done]. cbn [mbind option_bind].
    destruct (DoButton 3 _ sc) as [sd|] eqn:Hd; [|done]. cbn [mbind option_bind].
    intros [= <-].
    apply DoButton_buttons in Ha, Hb, Hc, Hd; try apply Hr.
    rewrite Hd, Hc, Hb, Ha.
    destruct Hwf as (Hlen&_).
    destruct (ButtonStatus s) as [|a [|b [|c [|d [|]]]]]; try done. }
  rewrite CheckButtons_unroll. unfold andThen, skip.
  do 4 (rewrite DoButton_same by (rewrite Hbs; reflexivity);
        cbn [mbind option_bind]).
  reflexivity.
Qed.

Lemma CheckButtons_same_levels_changes_nothing_witness :
  ∃ s1, CheckButtons (buttons_down [3]) (boot_state 1) = Some s1 ∧
        CheckButtons (buttons_down [3]) s1 = Some s1.
Proof.
  apply (CheckButtons_same_levels_changes_nothing (buttons_down [3])
           (boot_state 1)).
  - vm_compute. auto.
  - intros pin. unfold buttons_down. destruct (bool_decide _); auto.
Defined.

(** X7. Only a falling edge switches a port: a poll in which no button pin
    reads low leaves the active mask, the EEPROM, every pin and the log of
    calls as they were. *)
Theorem poll_without_press_switches_nothing
    (digitalRead : Z → Z) (s : State) :
  wf_state s →
  (∀ pin, digitalRead pin ≠ LOW) →
  ∃ s', CheckButtons digitalRead s = Some s' ∧
        PortStatus s' = PortStatus s ∧
        eeprom s' = eeprom s ∧
        pins s' = pins s ∧
        trace s' = trace s.
Proof.
  intros Hwf Hr.
  pose (quiet := λ s s' : State,
          wf_state s' ∧ PortStatus s' = PortStatus s ∧ eeprom s' = eeprom s ∧
          pins s' = pins s ∧ trace s' = trace s).
  assert (∀ b st s0, 0 ≤ b < 4 → st ≠ LOW → wf_state s0 →
            ∃ s1, DoButton b st s0 = Some s1 ∧ quiet s0 s1) as Hstep.
  { intros b st s0 Hb Hst Hwf0.
    destruct (DoButton_cases b st s0 Hb Hwf0) as (s1&Hs1&[->|[[_ ->]|[-> _]]]);
      [by exists s0| |done].
    eexists. split; [done|]. destruct s0. unfold quiet, wf_state in *. cbn in *.
    by rewrite length_insert. }
  rewrite CheckButtons_unroll. unfold andThen, skip.
  destruct (Hstep 0 (digitalRead 2) s) as (sa&->&Hwa&Ha); [lia|done..|].
  cbn [mbind option_bind].
  destruct (Hstep 1 (digitalRead 3) sa) as (sb&->&Hwb&Hb); [lia|done..|].
  cbn [mbind option_bind].
  destruct (Hstep 2 (digitalRead 4) sb) as (sc&->&Hwc&Hc); [lia|done..|].
  cbn [mbind option_bind].
  destruct (Hstep 3 (digitalRead 5) sc) as (sd&->&Hwd&Hd); [lia|done..|].
  cbn [mbind option_bind].
  exists sd. split; [done|].
  destruct Ha as (?&?&?&?), Hb as (?&?&?&?), Hc as (?&?&?&?), Hd as (?&?&?&?).
  repeat split; congruence.
Qed.

Lemma poll_without_press_switches_nothing_witness :
  ∃ s', CheckButtons (buttons_down []) (boot_state 1) = Some s' ∧
        PortStatus s' = PortStatus (boot_state 1) ∧
        eeprom s' = eeprom (boot_state 1) ∧
        pins s' = pins (boot_state 1) ∧
        trace s' = trace (boot_state 1).
Proof.
  apply (poll_without_press_switches_nothing (buttons_down []) (boot_state 1)).
  - vm_compute. auto.
  - intros pin. vm_compute. discriminate.
Defined.

(** ** Messages without memory *)

(** The message types the switch forwards with the live mask, and what it
    hands to the serial sink for each. *)
Lemma route_live (m : MidiMessage) (s : State) :
  getType m ∈ [MIDI_STATUS_PROGRAMCHANGE; MIDI_STATUS_CHANNELPRESSURE;
               MIDI_STATUS_PITCHBEND]
  ∨ (getType m = MIDI_STATUS_CONTROLCHANGE ∧ getData1 m ≠ 64) →
  ∃ msg, route m s =
         Some (forwarded (PortStatus s) msg (Z.lor (getType m) (getChannel m))
                 (getData1 m) (getData2 m) s) ∧
         (getType m = MIDI_STATUS_CONTROLCHANGE →
          msg = sendControlChange (getData1 m) (getData2 m) (getChannel m)) ∧
         (getType m = MIDI_STATUS_PROGRAMCHANGE →
          msg = sendProgramChange (getData1 m) (getChannel m)) ∧
         (getType m = MIDI_STATUS_CHANNELPRESSURE →
          msg = sendAfterTouch (getData1 m) (getChannel m)) ∧
         (getType m = MIDI_STATUS_PITCHBEND →
          msg = sendPitchBend
                  (to_int (to_int (getData1 m
                                   + to_int (Z.shiftl (getData2 m) 7))
                           - 8192))
                  (getChannel m)).
Proof.
  rewrite !elem_of_cons, elem_of_nil.
  intros [[Hty|[Hty|[Hty|[]]]]|[Hty Hd1]]; eexists; rewrite Hty.
  - split; [by apply route_ProgramChange|]. by repeat split.
  - split; [by apply route_ChannelPressure|]. by repeat split.
  - split; [by apply route_PitchBend|]. by repeat split.
  - split; [by apply route_ControlChange|]. by repeat split.
Qed.

(** X8. Controllers other than CC#64, program changes, channel pressure and
    pitch bend are forwarded with the live mask from any state: [SetPort] is
    called with [PortStatus], one message goes to the serial sink (the
    controller with its number and value, the program change and the
    channel pressure with their one data byte, the pitch bend with the
    16-bit value [data1 + (data2 << 7) - 8192]), the USB sink is gated by bit
    0 of [PortStatus], the select lines end on the live mask, and neither
    memory table is written; no array is indexed, so no assumption on the
    state is needed. *)
Theorem other_messages_use_live_mask (m : MidiMessage) (s : State) :
  getType m ∈ [MIDI_STATUS_PROGRAMCHANGE; MIDI_STATUS_CHANNELPRESSURE;
               MIDI_STATUS_PITCHBEND]
  ∨ (getType m = MIDI_STATUS_CONTROLCHANGE ∧ getData1 m ≠ 64) →
  ∃ s' msg,
    on_midi m s = Some s' ∧
    trace s' = trace s ++ DigitalWrite PIN_LED0 LOW
                 :: SetPort_calls (PortStatus s)
                 ++ MidiSerial msg
                 :: usb_calls (PortStatus s)
                      (Z.lor (getType m) (getChannel m))
                      (getData1 m) (getData2 m) ∧
    (getType m = MIDI_STATUS_CONTROLCHANGE →
     msg = sendControlChange (getData1 m) (getData2 m) (getChannel m)) ∧
    (getType m = MIDI_STATUS_PROGRAMCHANGE →
     msg = sendProgramChange (getData1 m) (getChannel m)) ∧
    (getType m = MIDI_STATUS_CHANNELPRESSURE →
     msg = sendAfterTouch (getData1 m) (getChannel m)) ∧
    (getType m = MIDI_STATUS_PITCHBEND →
     msg = sendPitchBend
             (to_int (to_int (getData1 m + to_int (Z.shiftl (getData2 m) 7))
                      - 8192))
             (getChannel m)) ∧
    mux_lines s' = lines_of (PortStatus s) ∧
    NoteMem s' = NoteMem s ∧
    SustainPedal s' = SustainPedal s ∧
    PortStatus s' = PortStatus s.
Proof.
  intros Hm. destruct (route_live m (blink s) Hm) as (msg&Hr&Hcc&Hpc&Hcp&Hpb).
  eexists _, msg. split; [by rewrite on_midi_eq|].
  split; [|split; [exact Hcc|split; [exact Hpc|split; [exact Hcp|
    split; [exact Hpb|]]]]].
  - destruct s. unfold forwarded, blink. run_proc. by rewrite <- app_assoc.
  - split; [apply mux_lines_forwarded|by destruct s].
Qed.

Lemma other_messages_use_live_mask_witness :
  ∃ s' msg,
    on_midi (mkMsg MIDI_STATUS_CONTROLCHANGE 2 7 90) (boot_state 3) = Some s' ∧
    trace s' = trace (boot_state 3) ++ DigitalWrite PIN_LED0 LOW
                 :: SetPort_calls (PortStatus (boot_state 3))
                 ++ MidiSerial msg
                 :: usb_calls (PortStatus (boot_state 3))
                      (Z.lor MIDI_STATUS_CONTROLCHANGE 2) 7 90 ∧
    (MIDI_STATUS_CONTROLCHANGE = MIDI_STATUS_CONTROLCHANGE →
     msg = sendControlChange 7 90 2) ∧
    (MIDI_STATUS_CONTROLCHANGE = MIDI_STATUS_PROGRAMCHANGE →
     msg = sendProgramChange 7 2) ∧
    (MIDI_STATUS_CONTROLCHANGE = MIDI_STATUS_CHANNELPRESSURE →
     msg = sendAfterTouch 7 2) ∧
    (MIDI_STATUS_CONTROLCHANGE = MIDI_STATUS_PITCHBEND →
     msg = sendPitchBend
             (to_int (to_int (7 + to_int (Z.shiftl 90 7)) - 8192)) 2) ∧
    mux_lines s' = lines_of (PortStatus (boot_state 3)) ∧
    NoteMem s' = NoteMem (boot_state 3) ∧
    SustainPedal s' = SustainPedal (boot_state 3) ∧
    PortStatus s' = PortStatus (boot_state 3).
Proof.
  apply (other_messages_use_live_mask
           (mkMsg MIDI_STATUS_CONTROLCHANGE 2 7 90) (boot_state 3)).
  right. split; [reflexivity|]. simpl. lia.
Defined.

(** X9. A message type the switch has no case for (polyphonic aftertouch
    0xA0, system messages) is not passed through: the iteration of [loop()]
    that receives it blinks the activity LED and sends nothing to either
    sink; the memory tables, the USB gate and the select lines stay as they
    were. *)
Theorem unhandled_type_is_swallowed (m : MidiMessage) (env : LoopEnv)
    (s : State) :
  wf_state s → getType m ∉ routed_types → MIDI_read env = Some m →
  ∃ s', loop env s = Some s' ∧
        on_midi m s = Some (blink s) ∧
        serial_out (trace s') = serial_out (trace s) ∧
        usb_out (trace s') = usb_out (trace s) ∧
        NoteMem s' = NoteMem s ∧
        SustainPedal s' = SustainPedal s ∧
        USBPort s' = USBPort s.
Proof.
  intros Hwf Hty Henv.
  pose proof (route_ignored m (blink s) Hty) as Hr.
  destruct (poll_safe_run_timers env (blink s)) as (s'&Hs'&Hf);
    [by apply wf_blink|].
  exists s'. split; [|split; [by rewrite on_midi_eq|]].
  { unfold loop. rewrite Henv. unfold andThen. by rewrite on_midi_eq, Hr. }
  rewrite (pf_serial _ _ Hf), (pf_usb _ _ Hf), (pf_NoteMem _ _ Hf),
    (pf_SustainPedal _ _ Hf), (pf_USBPort _ _ Hf).
  destruct s. unfold blink. run_proc.
  by rewrite serial_out_app, usb_out_app, !app_nil_r.
Qed.

Lemma unhandled_type_is_swallowed_witness :
  ∃ s', loop (midi_env (mkMsg MIDI_STATUS_AFTERTOUCH 1 60 90)) (boot_state 1)
        = Some s' ∧
        on_midi (mkMsg MIDI_STATUS_AFTERTOUCH 1 60 90) (boot_state 1)
        = Some (blink (boot_state 1)) ∧
        serial_out (trace s') = serial_out (trace (boot_state 1)) ∧
        usb_out (trace s') = usb_out (trace (boot_state 1)) ∧
        NoteMem s' = NoteMem (boot_state 1) ∧
        SustainPedal s' = SustainPedal (boot_state 1) ∧
        USBPort s' = USBPort (boot_state 1).
Proof.
  apply (unhandled_type_is_swallowed (mkMsg MIDI_STATUS_AFTERTOUCH 1 60 90)
           (midi_env (mkMsg MIDI_STATUS_AFTERTOUCH 1 60 90)) (boot_state 1)).
  - vm_compute. auto.
  - unfold routed_types. rewrite !elem_of_cons, elem_of_nil.
    vm_compute. lia.
  - reflexivity.
Defined.

(** ** More on the note memory *)

(** Processing a Note-On, from a state whose arrays have their sizes. *)
Lemma note_on_eq (n v c : Z) (s : State) :
  wf_state s → 0 ≤ n < 128 →
  ∃ s', on_midi (mkMsg MIDI_STATUS_NOTEON c n v) s = Some s' ∧
        wf_state s' ∧
        arr_get (NoteMem s') n = Some (mkNoteMemory 1 (PortStatus s)) ∧
        PortStatus s' = PortStatus s ∧
        trace s' = trace s ++ DigitalWrite PIN_LED0 LOW
                     :: SetPort_calls (PortStatus s)
                     ++ MidiSerial (sendNoteOn n v c)
                     :: usb_calls (PortStatus s) (Z.lor MIDI_STATUS_NOTEON c) n v.
Proof.
  intros Hwf Hn.
  assert (wf_state (blink s)) as Hwfb by by apply wf_blink.
  destruct (arr_get_Some (NoteMem (blink s)) n) as [e He];
    [destruct Hwfb as (_&->&_); lia|].
  pose proof (route_NoteOn (mkMsg MIDI_STATUS_NOTEON c n v) (blink s) e
                eq_refl He) as Hon.
  cbn [getData1 getData2 getChannel] in Hon.
  eexists. split; [by rewrite on_midi_eq|]. split; [|split; [|split]].
  - eapply routed_wf; [exact Hwfb|].
    apply (routed_note (mkMsg MIDI_STATUS_NOTEON c n v)).
  - unfold forwarded.
    cbn [NoteMem with_trace with_pins with_USBPort with_NoteMem].
    erewrite arr_get_insert_eq by exact He. by destruct s.
  - by destruct s.
  - destruct s. unfold forwarded, blink. run_proc. by rewrite <- app_assoc.
Qed.

(** X10. One entry per note: a Note-On for a note that is already held
    overwrites the captured mask.  Note-On at mask [PortStatus s0], button
    polls, a second Note-On for the same note, then two Note-Offs: the first
    Note-Off is routed with the mask of the second Note-On and clears the
    entry, the second Note-Off reaches neither sink; no Note-Off is routed
    with the mask of the first Note-On. *)
Theorem retriggered_note_keeps_last_mask
    (n v1 c1 v2 c2 v3 c3 v4 c4 : Z) (env : LoopEnv) (envs : list LoopEnv)
    (s0 : State) :
  wf_state s0 → 0 ≤ n < 128 →
  MIDI_read env = Some (mkMsg MIDI_STATUS_NOTEON c1 n v1) →
  Forall idle envs →
  ∃ s2 s3 s4 s5,
    run (env :: envs) s0 = Some s2 ∧
    arr_get (NoteMem s2) n = Some (mkNoteMemory 1 (PortStatus s0)) ∧
    on_midi (mkMsg MIDI_STATUS_NOTEON c2 n v2) s2 = Some s3 ∧
    arr_get (NoteMem s3) n = Some (mkNoteMemory 1 (PortStatus s2)) ∧
    on_midi (mkMsg MIDI_STATUS_NOTEOFF c3 n v3) s3 = Some s4 ∧
    trace s4 = trace s3 ++ DigitalWrite PIN_LED0 LOW
                 :: SetPort_calls (PortStatus s2)
                 ++ MidiSerial (sendNoteOff n v3 c3)
                 :: usb_calls (PortStatus s2) (Z.lor MIDI_STATUS_NOTEOFF c3) n v3 ∧
    on_midi (mkMsg MIDI_STATUS_NOTEOFF c4 n v4) s4 = Some s5 ∧
    trace s5 = trace s4 ++ [DigitalWrite PIN_LED0 LOW].
Proof.
  intros Hwf Hn Henv Hidle.
  destruct (note_on_then_idle n v1 c1 env envs s0) as (s2&Hrun&Hwf2&Hheld);
    [done..|].
  destruct (note_on_eq n v2 c2 s2 Hwf2 Hn) as (s3&Hs3&Hwf3&Hheld3&Hps3&_).
  destruct (note_off_held n v3 c3 (PortStatus s2) 1 s3 Hheld3)
    as (s4&Hs4&Htr4&Hclr&_); [done|].
  exists s2, s3, s4, (blink s4). repeat split; try done.
  rewrite on_midi_eq.
  apply (route_NoteOff_idle (mkMsg MIDI_STATUS_NOTEOFF c4 n v4) (blink s4)
           (mkNoteMemory 0 (PortStatus s2))); [done| |done].
  by destruct s4.
Qed.

Lemma retriggered_note_keeps_last_mask_witness :
  ∃ s2 s3 s4 s5,
    run [midi_env (mkMsg MIDI_STATUS_NOTEON 1 60 100); poll_env [2; 3]]
        (boot_state 1) = Some s2 ∧
    arr_get (NoteMem s2) 60 = Some (mkNoteMemory 1 (PortStatus (boot_state 1))) ∧
    on_midi (mkMsg MIDI_STATUS_NOTEON 1 60 90) s2 = Some s3 ∧
    arr_get (NoteMem s3) 60 = Some (mkNoteMemory 1 (PortStatus s2)) ∧
    on_midi (mkMsg MIDI_STATUS_NOTEOFF 1 60 0) s3 = Some s4 ∧
    trace s4 = trace s3 ++ DigitalWrite PIN_LED0 LOW
                 :: SetPort_calls (PortStatus s2)
                 ++ MidiSerial (sendNoteOff 60 0 1)
                 :: usb_calls (PortStatus s2) (Z.lor MIDI_STATUS_NOTEOFF 1) 60 0 ∧
    on_midi (mkMsg MIDI_STATUS_NOTEOFF 1 60 0) s4 = Some s5 ∧
    trace s5 = trace s4 ++ [DigitalWrite PIN_LED0 LOW].
Proof.
  apply (retriggered_note_keeps_last_mask 60 100 1 90 1 0 1 0 1
           (midi_env (mkMsg MIDI_STATUS_NOTEON 1 60 100))
           [poll_env [2; 3]] (boot_state 1)).
  - vm_compute. auto.
  - lia.
  - reflexivity.
  - repeat constructor.
Defined.

(** In that run port 0 got the first Note-On and port 1 the second; the one
    Note-Off that is forwarded goes out behind [SetPort(0b0010)]. *)
Example retrigger_leaves_first_port_without_note_off :
  ∃ s2 s3 s4,
    run [midi_env (mkMsg MIDI_STATUS_NOTEON 1 60 100); poll_env [2; 3]]
        (boot_state 1) = Some s2 ∧
    on_midi (mkMsg MIDI_STATUS_NOTEON 1 60 90) s2 = Some s3 ∧
    on_midi (mkMsg MIDI_STATUS_NOTEOFF 1 60 0) s3 = Some s4 ∧
    drop (length (trace (boot_state 1))) (trace s4) =
      [DigitalWrite PIN_LED0 LOW;
       DigitalWrite 18 1; DigitalWrite 19 0; DigitalWrite 20 0;
       DigitalWrite 21 0; DelayMicroseconds 10;
       MidiSerial (sendNoteOn 60 100 1);
       UsbSendMIDI (mkPacket 0x09 0x90 60 100); UsbFlush;
       DigitalWrite 6 0; EepromUpdate 8 0; DigitalWrite 7 1; EepromUpdate 8 2;
       DigitalWrite PIN_LED0 LOW;
       DigitalWrite 18 0; DigitalWrite 19 1; DigitalWrite 20 0;
       DigitalWrite 21 0; DelayMicroseconds 10;
       MidiSerial (sendNoteOn 60 90 1);
       DigitalWrite PIN_LED0 LOW;
       DigitalWrite 18 0; DigitalWrite 19 1; DigitalWrite 20 0;
       DigitalWrite 21 0; DelayMicroseconds 10;
       MidiSerial (sendNoteOff 60 0 1)].
Proof. eexists _, _, _. by vm_compute. Qed.

(** A message that is neither a Note-On nor a Note-Off for [n] leaves
    [NoteMem[n]] alone. *)
Lemma route_note_frame (m : MidiMessage) (n : Z) (s s' : State) :
  wf_state s → valid_msg m → is_note n m = false →
  route m s = Some s' →
  arr_get (NoteMem s') n = arr_get (NoteMem s) n.
Proof.
  intros (_&Hnm&Hsp) (Hch&Hd1&Hd2) Hnote.
  destruct (arr_get_Some (NoteMem s) (getData1 m)) as [e He]; [lia|].
  destruct (arr_get_Some (SustainPedal s) (getChannel m - 1)) as [p Hp]; [lia|].
  assert (∀ port msg b1 b2 b3 x,
            getData1 m ≠ n →
            arr_get (NoteMem (forwarded port msg b1 b2 b3
                       (with_NoteMem (<[Z.to_nat (getData1 m) := x]> (NoteMem s)) s)))
                    n = arr_get (NoteMem s) n) as Hins.
  { intros port msg b1 b2 b3 x Hne. unfold forwarded.
    cbn [NoteMem with_trace with_pins with_USBPort with_NoteMem].
    apply arr_get_insert_ne; [lia|done]. }
  unfold is_note in Hnote.
  destruct (decide (getType m ∈ routed_types)) as [Hty|Hty];
    [|rewrite (route_ignored m s Hty); by intros [= <-]].
  unfold routed_types in Hty. rewrite !elem_of_cons, elem_of_nil in Hty.
  destruct Hty as [Hty|[Hty|[Hty|[Hty|[Hty|[Hty|[]]]]]]].
  - rewrite Hty in Hnote. cbn in Hnote. apply Z.eqb_neq in Hnote.
    rewrite (route_NoteOn m s e Hty He). intros [= <-]. by apply Hins.
  - rewrite Hty in Hnote. cbn in Hnote. apply Z.eqb_neq in Hnote.
    destruct (decide (Status e = 0)) as [Hst|Hst].
    + rewrite (route_NoteOff_idle m s e Hty He Hst). by intros [= <-].
    + rewrite (route_NoteOff_held m s e Hty He Hst). intros [= <-]. by apply Hins.
  - destruct (decide (getData1 m = 64)) as [H64|H64].
    + destruct (decide (63 < getData2 m)) as [Hv|Hv].
      * rewrite (route_sustain_on m s p Hty H64 Hv Hp). by intros [= <-].
      * rewrite (route_sustain_off m s p Hty H64 ltac:(lia) Hp). by intros [= <-].
    + rewrite (route_ControlChange m s Hty H64). by intros [= <-].
  - rewrite (route_ProgramChange m s Hty). by intros [= <-].
  - rewrite (route_ChannelPressure m s Hty). by intros [= <-].
  - rewrite (route_PitchBend m s Hty). by intros [= <-].
Qed.

Lemma loop_note_frame (n : Z) (env : LoopEnv) (s : State) :
  wf_state s → no_note_on n env →
  ∃ s', loop env s = Some s' ∧ wf_state s' ∧
        arr_get (NoteMem s') n = arr_get (NoteMem s) n.
Proof.
  intros Hwf Henv. unfold no_note_on in Henv. unfold loop.
  destruct (MIDI_read env) as [m|].
  - destruct Henv as [Hm Hnn].
    destruct (route_routed m (blink s)) as (s1&Hs1&Hr); [by apply wf_blink|done|].
    assert (wf_state s1) as Hwf1 by (eapply routed_wf; [by apply wf_blink|done]).
    destruct (poll_safe_run_timers env s1 Hwf1) as (s'&Hs'&Hf).
    exists s'. split; [|split].
    + unfold andThen. by rewrite on_midi_eq, Hs1.
    + by eapply wf_poll_frame.
    + rewrite (pf_NoteMem _ _ Hf).
      rewrite (route_note_frame m n (blink s) s1); [by destruct s|..|done];
        [by apply wf_blink|done|done].
  - destruct (poll_safe_run_timers env s Hwf) as (s'&Hs'&Hf).
    exists s'. split; [|split].
    + unfold andThen. by cbn.
    + by eapply wf_poll_frame.
    + by rewrite (pf_NoteMem _ _ Hf).
Qed.

Lemma run_note_frame (n : Z) (envs : list LoopEnv) (s : State) :
  wf_state s → Forall (no_note_on n) envs →
  ∃ s', run envs s = Some s' ∧ wf_state s' ∧
        arr_get (NoteMem s') n = arr_get (NoteMem s) n.
Proof.
  intros Hwf Henvs. revert s Hwf.
  induction Henvs as [|env envs Henv _ IH]; intros s Hwf.
  - by exists s.
  - destruct (loop_note_frame n env s Hwf Henv) as (s1&Hs1&Hwf1&H1).
    destruct (IH s1 Hwf1) as (s2&Hs2&Hwf2&H2).
    exists s2. split; [|split; [done|congruence]].
    cbn [run]. unfold andThen. by rewrite Hs1.
Qed.

(** X11. The notes do not disturb each other.  Between the Note-On for [n]
    and its Note-Off, [loop()] may run on any traffic that has no Note-On or
    Note-Off for [n] itself - other notes going on and off, controllers, the
    sustain pedal, button presses: the Note-Off for [n] is still routed with
    the mask that was live at its Note-On, and clears the entry. *)
Theorem held_note_survives_other_traffic
    (n v1 c1 v2 c2 : Z) (env : LoopEnv) (envs : list LoopEnv) (s0 : State) :
  wf_state s0 → 0 ≤ n < 128 →
  MIDI_read env = Some (mkMsg MIDI_STATUS_NOTEON c1 n v1) →
  Forall (no_note_on n) envs →
  ∃ s2 s3,
    run (env :: envs) s0 = Some s2 ∧
    note_active s2 n = true ∧
    on_midi (mkMsg MIDI_STATUS_NOTEOFF c2 n v2) s2 = Some s3 ∧
    trace s3 = trace s2 ++ DigitalWrite PIN_LED0 LOW
                 :: SetPort_calls (PortStatus s0)
                 ++ MidiSerial (sendNoteOff n v2 c2)
                 :: usb_calls (PortStatus s0) (Z.lor MIDI_STATUS_NOTEOFF c2) n v2 ∧
    note_active s3 n = false ∧
    mux_lines s3 = lines_of (PortStatus s0).
Proof.
  intros Hwf Hn Henv Henvs.
  destruct (note_on_eq n v1 c1 s0 Hwf Hn) as (s1&Hs1&Hwf1&Hheld1&_).
  destruct (poll_safe_run_timers env s1 Hwf1) as (s1'&Hs1'&Hf1).
  destruct (run_note_frame n envs s1') as (s2&Hs2&Hwf2&Hfr);
    [by eapply wf_poll_frame|done|].
  rewrite (pf_NoteMem _ _ Hf1), Hheld1 in Hfr.
  destruct (note_off_held n v2 c2 (PortStatus s0) 1 s2 Hfr)
    as (s3&Hoff&Htr&Hclr&Hmux&_); [done|].
  exists s2, s3.
  rewrite (note_active_held _ _ _ _ Hfr), (note_active_held _ _ _ _ Hclr).
  repeat split; try done.
  cbn [run]. unfold andThen at 1. unfold loop. rewrite Henv.
  unfold andThen at 1. rewrite Hs1. cbn [mbind option_bind]. by rewrite Hs1'.
Qed.

Lemma held_note_survives_other_traffic_witness :
  ∃ s2 s3,
    run [midi_env (mkMsg MIDI_STATUS_NOTEON 1 60 100);
         poll_env [2; 3];
         midi_env (mkMsg MIDI_STATUS_NOTEON 1 64 100);
         midi_env (mkMsg MIDI_STATUS_NOTEOFF 1 64 0);
         midi_env (mkMsg MIDI_STATUS_CONTROLCHANGE 1 64 127)] (boot_state 1)
      = Some s2 ∧
    note_active s2 60 = true ∧
    on_midi (mkMsg MIDI_STATUS_NOTEOFF 1 60 0) s2 = Some s3 ∧
    trace s3 = trace s2 ++ DigitalWrite PIN_LED0 LOW
                 :: SetPort_calls (PortStatus (boot_state 1))
                 ++ MidiSerial (sendNoteOff 60 0 1)
                 :: usb_calls (PortStatus (boot_state 1))
                      (Z.lor MIDI_STATUS_NOTEOFF 1) 60 0 ∧
    note_active s3 60 = false ∧
    mux_lines s3 = lines_of (PortStatus (boot_state 1)).
Proof.
  apply (held_note_survives_other_traffic 60 100 1 0 1
           (midi_env (mkMsg MIDI_STATUS_NOTEON 1 60 100))
           [poll_env [2; 3];
            midi_env (mkMsg MIDI_STATUS_NOTEON 1 64 100);
            midi_env (mkMsg MIDI_STATUS_NOTEOFF 1 64 0);
            midi_env (mkMsg MIDI_STATUS_CONTROLCHANGE 1 64 127)]
           (boot_state 1)).
  - vm_compute. auto.
  - lia.
  - reflexivity.
  - repeat constructor; simpl; lia.
Defined.

(** ** The USB side on channels 1 to 15 *)

(** X12. With the gate open, a message of any forwarded type on a channel
    from 1 to 15 leaves [UsbMidiSend] as the USB-MIDI event packet of that
    message: code index the high nibble of the status, status byte with the
    channel minus one, the two data bytes; with the gate closed nothing is
    sent and the state is returned as it is. *)
Theorem UsbMidiSend_packet (st ch d1 d2 : Z) (s : State) :
  st ∈ routed_types → 1 ≤ ch ≤ 15 → 0 ≤ d1 < 128 → 0 ≤ d2 < 128 →
  UsbMidiSend (Z.lor st ch) d1 d2 s =
  if USBPort s =? 0 then Some s
  else Some (with_trace
               (trace s ++ [UsbSendMIDI (mkPacket (Z.shiftr st 4)
                                                  (Z.lor st (ch - 1)) d1 d2);
                            UsbFlush]) s).
Proof.
  intros Hst Hch Hd1 Hd2.
  rewrite <- (usb_event_channel st ch d1 d2) by done.
  unfold UsbMidiSend, usb_event. destruct (USBPort s =? 0); [done|].
  destruct s. run_proc. by rewrite <- app_assoc.
Qed.

Lemma UsbMidiSend_packet_witness :
  UsbMidiSend (Z.lor MIDI_STATUS_PITCHBEND 15) 0 64 (with_USBPort 1 (boot_state 1)) =
  if USBPort (with_USBPort 1 (boot_state 1)) =? 0
  then Some (with_USBPort 1 (boot_state 1))
  else Some (with_trace
               (trace (with_USBPort 1 (boot_state 1))
                  ++ [UsbSendMIDI (mkPacket (Z.shiftr MIDI_STATUS_PITCHBEND 4)
                                     (Z.lor MIDI_STATUS_PITCHBEND (15 - 1)) 0 64);
                      UsbFlush]) (with_USBPort 1 (boot_state 1))).
Proof.
  apply (UsbMidiSend_packet MIDI_STATUS_PITCHBEND 15 0 64
           (with_USBPort 1 (boot_state 1))).
  - unfold routed_types. rewrite !elem_of_cons. do 5 right. left. reflexivity.
  - lia.
  - lia.
  - lia.
Defined.

(** ** The expression pedal *)

Lemma ExpCurve_range (i e : Z) :
  arr_get UP4.ExpCurve i = Some e → 0 ≤ e ≤ 127.
Proof.
  intros He. apply arr_get_elem in He. revert e He. apply Forall_forall.
  apply (bool_decide_unpack _). by vm_compute.
Qed.

Lemma ExpCurve_monotone (i j a b : Z) :
  i ≤ j → arr_get UP4.ExpCurve i = Some a → arr_get UP4.ExpCurve j = Some b →
  a ≤ b.
Proof.
  intros Hij Ha Hb.
  assert (Forall (λ i, Forall (λ j, i ≤ j →
            default 0 (arr_get UP4.ExpCurve i) ≤ default 0 (arr_get UP4.ExpCurve j))
            (seqZ 0 128)) (seqZ 0 128)) as Hall.
  { apply (bool_decide_unpack _). by vm_compute. }
  pose proof (arr_get_range _ _ _ Ha) as Hi.
  pose proof (arr_get_range _ _ _ Hb) as Hj. cbn in Hi, Hj.
  rewrite Forall_forall in Hall. specialize (Hall i).
  rewrite elem_of_seqZ in Hall. specialize (Hall ltac:(lia)).
  rewrite Forall_forall in Hall. specialize (Hall j).
  rewrite elem_of_seqZ in Hall. specialize (Hall ltac:(lia) Hij).
  by rewrite Ha, Hb in Hall.
Qed.

Lemma val7bit_range (value : Z) :
  0 ≤ value < 1024 →
  to_byte (Z.shiftr value 3) = value / 8 ∧ 0 ≤ value / 8 < 128.
Proof.
  intros Hv. rewrite Z.shiftr_div_pow2 by lia. change (2 ^ 3) with 8.
  assert (0 ≤ value / 8 < 128) by (split; [apply Z.div_pos|apply Z.div_lt_upper_bound]; lia).
  split; [|done]. apply to_byte_id. lia.
Qed.

(** The switch over the four curves returns a 7-bit value. *)
Lemma cc_value_range (curve v7 : Z) :
  0 ≤ curve < 4 → 0 ≤ v7 < 128 →
  ∃ v, UP4.cc_value curve v7 = Some v ∧ 0 ≤ v ≤ 127.
Proof.
  intros Hc Hv. unfold UP4.cc_value.
  destruct (arr_get_Some UP4.ExpCurve v7) as [e He]; [cbn; lia|].
  pose proof (ExpCurve_range v7 e He).
  assert (curve = 0 ∨ curve = 1 ∨ curve = 2 ∨ curve = 3) as [-> | [-> | [-> | ->]]]
    by lia; eval_const_eqb; rewrite ?He; cbn [mbind option_bind];
    eexists; (split; [reflexivity|]); rewrite ?to_byte_id; lia.
Qed.

(** The decoding of a bank of DIP switches. *)
Lemma lnot_bit (x : Z) : UP4.lnot x = 0 ∨ UP4.lnot x = 1.
Proof. unfold UP4.lnot. destruct (x =? 0); auto. Qed.

Lemma dip4_value (a b c d : Z) :
  (a = 0 ∨ a = 1) → (b = 0 ∨ b = 1) → (c = 0 ∨ c = 1) → (d = 0 ∨ d = 1) →
  to_byte (Z.lor (Z.lor (Z.lor a (Z.shiftl b 1)) (Z.shiftl c 2)) (Z.shiftl d 3))
  = a + 2 * b + 4 * c + 8 * d.
Proof. by intros [-> | ->] [-> | ->] [-> | ->] [-> | ->]. Qed.

Lemma dip2_value (a b : Z) :
  (a = 0 ∨ a = 1) → (b = 0 ∨ b = 1) →
  to_byte (Z.lor a (Z.shiftl b 1)) = a + 2 * b.
Proof. by intros [-> | ->] [-> | ->]. Qed.

(** The packet for a control change on a channel from 0 to 15. *)
Lemma pedal_packet (ch number v : Z) (s : UP4.State) :
  0 ≤ ch < 16 → 0 ≤ number < 128 → 0 ≤ v < 128 →
  UP4.UsbMidiSend (Z.lor 0xB0 ch) number v s =
  Some (UP4.mkState (UP4.CCselect s) (UP4.Channel s) (UP4.CurveSelect s)
          (UP4.prev_value s)
          (UP4.trace s ++ [UsbSendMIDI (mkPacket 0x0B (0xB0 + ch) number v);
                           UsbFlush])).
Proof.
  intros Hch Hn Hv. unfold UP4.UsbMidiSend.
  rewrite (to_byte_id number), (to_byte_id v) by lia.
  assert (ch ∈ seqZ 0 16) as Hin by (apply elem_of_seqZ; lia).
  clear Hch. revert ch Hin. apply Forall_forall.
  repeat (apply Forall_cons; split; [reflexivity|]). apply Forall_nil_2.
Qed.

(** [DoPedal()] on selections within their switch banks. *)
Lemma DoPedal_eq (value : Z) (s : UP4.State) :
  0 ≤ value < 1024 → -1 ≤ UP4.prev_value s < 1024 →
  0 ≤ UP4.Channel s < 16 → 0 ≤ UP4.CCselect s < 4 → 0 ≤ UP4.CurveSelect s < 4 →
  ∃ s',
    UP4.DoPedal value s = Some s' ∧
    UP4.Channel s' = UP4.Channel s ∧
    UP4.CCselect s' = UP4.CCselect s ∧
    UP4.CurveSelect s' = UP4.CurveSelect s ∧
    if Z.abs (value - UP4.prev_value s) <=? UP4.DEADBAND
    then UP4.trace s' = UP4.trace s ∧ UP4.prev_value s' = UP4.prev_value s
    else ∃ number v,
           arr_get UP4.CCnumber (UP4.CCselect s) = Some number ∧
           UP4.cc_value (UP4.CurveSelect s) (value / 8) = Some v ∧
           0 ≤ v ≤ 127 ∧
           UP4.trace s' = UP4.trace s ++
             [UsbSendMIDI (mkPacket 0x0B (0xB0 + UP4.Channel s) number v);
              UsbFlush] ∧
           UP4.prev_value s' = value.
Proof.
  intros Hv Hp Hch Hcs Hcv. unfold UP4.DoPedal.
  rewrite (to_int_id (value - UP4.prev_value s)) by lia.
  rewrite (to_int_id (Z.abs _)) by lia.
  destruct (Z.abs (value - UP4.prev_value s) <=? UP4.DEADBAND); [by exists s|].
  cbn [UP4.prev_value UP4.CurveSelect UP4.CCselect UP4.Channel UP4.trace].
  destruct (val7bit_range value Hv) as [-> H7b].
  destruct (cc_value_range (UP4.CurveSelect s) (value / 8) Hcv H7b) as (v&Hcc&Hvr).
  destruct (arr_get_Some UP4.CCnumber (UP4.CCselect s)) as [number Hnum];
    [cbn; lia|].
  assert (0 ≤ number < 128) as Hnr.
  { apply arr_get_elem in Hnum. revert Hnum. unfold UP4.CCnumber.
    rewrite !elem_of_cons, elem_of_nil. lia. }
  rewrite Hcc, Hnum. cbn [mbind option_bind].
  rewrite pedal_packet by lia.
  eexists. split; [reflexivity|].
  cbn [UP4.prev_value UP4.CurveSelect UP4.CCselect UP4.Channel UP4.trace].
  repeat split; try done. by exists number, v.
Qed.

(** [loop()] is [DoPedal()] on the selections read from the DIP switches. *)
Lemma pedal_loop_dips (digitalRead : Z → Z) (value : Z) (s : UP4.State) :
  ∃ ch cs cv,
    UP4.loop digitalRead value s
    = UP4.DoPedal value (UP4.mkState cs ch cv (UP4.prev_value s) (UP4.trace s)) ∧
    ch = UP4.lnot (digitalRead UP4.PIN_D1)
         + 2 * UP4.lnot (digitalRead UP4.PIN_D2)
         + 4 * UP4.lnot (digitalRead UP4.PIN_D3)
         + 8 * UP4.lnot (digitalRead UP4.PIN_D4) ∧
    cs = UP4.lnot (digitalRead UP4.PIN_D5)
         + 2 * UP4.lnot (digitalRead UP4.PIN_D6) ∧
    cv = UP4.lnot (digitalRead UP4.PIN_D7)
         + 2 * UP4.lnot (digitalRead UP4.PIN_D8) ∧
    0 ≤ ch < 16 ∧ 0 ≤ cs < 4 ∧ 0 ≤ cv < 4.
Proof.
  pose proof (lnot_bit (digitalRead UP4.PIN_D1)).
  pose proof (lnot_bit (digitalRead UP4.PIN_D2)).
  pose proof (lnot_bit (digitalRead UP4.PIN_D3)).
  pose proof (lnot_bit (digitalRead UP4.PIN_D4)).
  pose proof (lnot_bit (digitalRead UP4.PIN_D5)).
  pose proof (lnot_bit (digitalRead UP4.PIN_D6)).
  pose proof (lnot_bit (digitalRead UP4.PIN_D7)).
  pose proof (lnot_bit (digitalRead UP4.PIN_D8)).
  eexists _, _, _. split; [|split; [reflexivity|split; [reflexivity|split;
    [reflexivity|lia]]]].
  unfold UP4.loop. cbv zeta. by rewrite dip4_value, !dip2_value.
Qed.

(** X13. One iteration of the pedal's [loop()], for any setting of the
    eight DIP switches and any reading of the 10-bit ADC.  It returns (no
    table is indexed out of bounds, the curve switch always hits a case);
    the channel, controller and curve selections are the binary values of
    their switch banks; and either the reading is within the deadband of the
    last reading sent, and nothing is sent, or exactly one control change
    goes out: code index 0x0B, status 0xB0 plus the channel, the selected
    controller number, and a value from 0 to 127 computed by the selected
    curve from the reading divided by 8; the reading becomes the new
    reference. *)
Theorem pedal_loop_sends_one_control_change
    (digitalRead : Z → Z) (value : Z) (s : UP4.State) :
  0 ≤ value < 1024 → -1 ≤ UP4.prev_value s < 1024 →
  ∃ s',
    UP4.loop digitalRead value s = Some s' ∧
    UP4.Channel s' = UP4.lnot (digitalRead UP4.PIN_D1)
                     + 2 * UP4.lnot (digitalRead UP4.PIN_D2)
                     + 4 * UP4.lnot (digitalRead UP4.PIN_D3)
                     + 8 * UP4.lnot (digitalRead UP4.PIN_D4) ∧
    UP4.CCselect s' = UP4.lnot (digitalRead UP4.PIN_D5)
                      + 2 * UP4.lnot (digitalRead UP4.PIN_D6) ∧
    UP4.CurveSelect s' = UP4.lnot (digitalRead UP4.PIN_D7)
                         + 2 * UP4.lnot (digitalRead UP4.PIN_D8) ∧
    if Z.abs (value - UP4.prev_value s) <=? UP4.DEADBAND
    then UP4.trace s' = UP4.trace s ∧ UP4.prev_value s' = UP4.prev_value s
    else ∃ number v,
           arr_get UP4.CCnumber (UP4.CCselect s') = Some number ∧
           UP4.cc_value (UP4.CurveSelect s') (value / 8) = Some v ∧
           0 ≤ v ≤ 127 ∧
           UP4.trace s' = UP4.trace s ++
             [UsbSendMIDI (mkPacket 0x0B (0xB0 + UP4.Channel s') number v);
              UsbFlush] ∧
           UP4.prev_value s' = value.
Proof.
  intros Hv Hp.
  destruct (pedal_loop_dips digitalRead value s)
    as (ch&cs&cv&Hloop&Hch&Hcs&Hcv&Hrch&Hrcs&Hrcv).
  destruct (DoPedal_eq value (UP4.mkState cs ch cv (UP4.prev_value s) (UP4.trace s)))
    as (s'&Hs'&Hch'&Hcs'&Hcv'&Hcase); try done.
  cbn [UP4.prev_value UP4.CurveSelect UP4.CCselect UP4.Channel UP4.trace] in *.
  exists s'. rewrite Hloop, Hch', Hcs', Hcv', <- Hch, <- Hcs, <- Hcv. done.
Qed.

(** The pedal pressed from rest to mid travel, channel switches at 0b0010
    (channel 3 on the wire as 2), controller bank at 0 (CC#11), curve bank at
    1 (exponential). *)
Lemma pedal_loop_sends_one_control_change_witness :
  ∃ s',
    UP4.loop (buttons_down [UP4.PIN_D2; UP4.PIN_D7]) 512 UP4.power_on = Some s' ∧
    UP4.Channel s' = UP4.lnot (buttons_down [UP4.PIN_D2; UP4.PIN_D7] UP4.PIN_D1)
                     + 2 * UP4.lnot (buttons_down [UP4.PIN_D2; UP4.PIN_D7] UP4.PIN_D2)
                     + 4 * UP4.lnot (buttons_down [UP4.PIN_D2; UP4.PIN_D7] UP4.PIN_D3)
                     + 8 * UP4.lnot (buttons_down [UP4.PIN_D2; UP4.PIN_D7] UP4.PIN_D4) ∧
    UP4.CCselect s' = UP4.lnot (buttons_down [UP4.PIN_D2; UP4.PIN_D7] UP4.PIN_D5)
                      + 2 * UP4.lnot (buttons_down [UP4.PIN_D2; UP4.PIN_D7] UP4.PIN_D6) ∧
    UP4.CurveSelect s' = UP4.lnot (buttons_down [UP4.PIN_D2; UP4.PIN_D7] UP4.PIN_D7)
                         + 2 * UP4.lnot (buttons_down [UP4.PIN_D2; UP4.PIN_D7] UP4.PIN_D8) ∧
    if Z.abs (512 - UP4.prev_value UP4.power_on) <=? UP4.DEADBAND
    then UP4.trace s' = UP4.trace UP4.power_on
         ∧ UP4.prev_value s' = UP4.prev_value UP4.power_on
    else ∃ number v,
           arr_get UP4.CCnumber (UP4.CCselect s') = Some number ∧
           UP4.cc_value (UP4.CurveSelect s') (512 / 8) = Some v ∧
           0 ≤ v ≤ 127 ∧
           UP4.trace s' = UP4.trace UP4.power_on ++
             [UsbSendMIDI (mkPacket 0x0B (0xB0 + UP4.Channel s') number v);
              UsbFlush] ∧
           UP4.prev_value s' = 512.
Proof.
  apply (pedal_loop_sends_one_control_change
           (buttons_down [UP4.PIN_D2; UP4.PIN_D7]) 512 UP4.power_on).
  - lia.
  - simpl. lia.
Defined.

Example pedal_mid_travel :
  UP4.sent <$> UP4.loop (buttons_down [UP4.PIN_D2; UP4.PIN_D7]) 512 UP4.power_on
  = Some [mkPacket 0x0B 0xB2 11 29].
Proof. by vm_compute. Qed.

(** X14. The deadband is measured from the last reading that was sent, not
    from the last reading taken: however many readings follow, as long as
    each is within 8 of that reference none of them is sent and the reference
    does not move.  At power-on the reference is -1, so a pedal resting at a
    reading from 0 to 7 sends nothing. *)
Theorem pedal_silent_within_deadband
    (digitalRead : Z → Z) (readings : list Z) (s : UP4.State) :
  -1 ≤ UP4.prev_value s < 1024 →
  Forall (λ value, 0 ≤ value < 1024
                   ∧ Z.abs (value - UP4.prev_value s) ≤ UP4.DEADBAND) readings →
  ∃ s', UP4.run digitalRead readings s = Some s' ∧
        UP4.trace s' = UP4.trace s ∧
        UP4.prev_value s' = UP4.prev_value s.
Proof.
  intros Hp Hall. revert s Hp Hall.
  induction readings as [|value readings IH]; intros s Hp Hall.
  - by exists s.
  - apply Forall_cons in Hall as [[Hv Hd] Hall].
    destruct (pedal_loop_dips digitalRead value s)
      as (ch&cs&cv&Hloop&_&_&_&Hrch&Hrcs&Hrcv).
    destruct (DoPedal_eq value
                (UP4.mkState cs ch cv (UP4.prev_value s) (UP4.trace s)))
      as (s1&Hs1&_&_&_&Hcase); try done.
    cbn [UP4.prev_value UP4.trace] in Hcase.
    rewrite (proj2 (Z.leb_le _ _) Hd) in Hcase. destruct Hcase as [Htr1 Hpv1].
    destruct (IH s1) as (s'&Hs'&Htr&Hpv);
      [by rewrite Hpv1|by rewrite Hpv1|].
    exists s'. split; [|split; congruence].
    cbn [UP4.run]. by rewrite Hloop, Hs1.
Qed.

Lemma pedal_silent_within_deadband_witness :
  ∃ s', UP4.run (buttons_down []) [0; 3; 7; 5; 7] UP4.power_on = Some s' ∧
        UP4.trace s' = UP4.trace UP4.power_on ∧
        UP4.prev_value s' = UP4.prev_value UP4.power_on.
Proof.
  apply (pedal_silent_within_deadband (buttons_down []) [0; 3; 7; 5; 7]
           UP4.power_on).
  - simpl. lia.
  - repeat (apply Forall_cons_2;
            [split; [lia|unfold UP4.DEADBAND; cbn [UP4.prev_value UP4.power_on]; lia]|]).
    apply Forall_nil_2.
Defined.

(** X15. The curves follow the pedal: for two readings in order, the linear
    and the exponential curve give values in the same order, the two reverse
    curves give values in the opposite order. *)
Theorem pedal_curves_monotone (curve v1 v2 a b : Z) :
  0 ≤ v1 → v1 ≤ v2 → v2 < 1024 →
  UP4.cc_value curve (to_byte (Z.shiftr v1 3)) = Some a →
  UP4.cc_value curve (to_byte (Z.shiftr v2 3)) = Some b →
  (curve = 0 ∨ curve = 1 → a ≤ b) ∧ (curve = 2 ∨ curve = 3 → b ≤ a).
Proof.
  intros H1 H12 H2.
  destruct (val7bit_range v1) as [-> Hr1]; [lia|].
  destruct (val7bit_range v2) as [-> Hr2]; [lia|].
  assert (v1 / 8 ≤ v2 / 8) as Hle by (apply Z.div_le_mono; lia).
  unfold UP4.cc_value. intros Ha Hb. split.
  - intros [-> | ->]; revert Ha Hb; eval_const_eqb.
    + intros [= <-] [= <-]. done.
    + intros Ha Hb. by eapply ExpCurve_monotone.
  - intros [-> | ->]; revert Ha Hb; eval_const_eqb.
    + intros [= <-] [= <-]. rewrite !to_byte_id by lia. lia.
    + destruct (arr_get UP4.ExpCurve (v1 / 8)) as [e1|] eqn:He1; [|done].
      destruct (arr_get UP4.ExpCurve (v2 / 8)) as [e2|] eqn:He2; [|done].
      cbn [mbind option_bind]. intros [= <-] [= <-].
      pose proof (ExpCurve_range _ _ He1). pose proof (ExpCurve_range _ _ He2).
      pose proof (ExpCurve_monotone _ _ _ _ Hle He1 He2).
      rewrite !to_byte_id by lia. lia.
Qed.

Lemma pedal_curves_monotone_witness :
  UP4.cc_value 3 (to_byte (Z.shiftr 512 3)) = Some 98 ∧
  UP4.cc_value 3 (to_byte (Z.shiftr 1000 3)) = Some 5 ∧
  5 ≤ 98.
Proof.
  split; [reflexivity|]. split; [reflexivity|].
  apply (pedal_curves_monotone 3 512 1000 98 5); try lia; reflexivity.
Defined.

(** X16. Every curve spans the whole controller range: with the pedal at
    the heel (readings below 8) the linear and exponential curves give 0 and
    the reverse curves 127, and at the toe (readings from 1016) the other way
    round. *)
Theorem pedal_curves_reach_both_ends (curve value : Z) :
  0 ≤ curve < 4 →
  (0 ≤ value < 8 →
   UP4.cc_value curve (to_byte (Z.shiftr value 3))
   = Some (if curve <? 2 then 0 else 127)) ∧
  (1016 ≤ value < 1024 →
   UP4.cc_value curve (to_byte (Z.shiftr value 3))
   = Some (if curve <? 2 then 127 else 0)).
Proof.
  intros Hc. split; intros Hv.
  - destruct (val7bit_range value) as [-> _]; [lia|].
    replace (value / 8) with 0 by (symmetry; apply Z.div_small; lia).
    assert (curve = 0 ∨ curve = 1 ∨ curve = 2 ∨ curve = 3)
      as [-> | [-> | [-> | ->]]] by lia; reflexivity.
  - destruct (val7bit_range value) as [-> _]; [lia|].
    replace (value / 8) with 127
      by (apply Z.div_unique with (r := value - 1016); lia).
    assert (curve = 0 ∨ curve = 1 ∨ curve = 2 ∨ curve = 3)
      as [-> | [-> | [-> | ->]]] by lia; reflexivity.
Qed.

Lemma pedal_curves_reach_both_ends_witness :
  UP4.cc_value 1 (to_byte (Z.shiftr 1020 3)) = Some 127 ∧
  UP4.cc_value 3 (to_byte (Z.shiftr 5 3)) = Some 127.
Proof.
  split.
  - apply (pedal_curves_reach_both_ends 1 1020); lia.
  - apply (pedal_curves_reach_both_ends 3 5); lia.
Defined.

(** X17. The reference never trails the pedal by more than the deadband:
    after every iteration of [loop()], the last reading sent is within 8 ADC
    counts of the reading just taken, and it is still a reading (or the -1
    of power-on). *)
Theorem pedal_reference_tracks_reading
    (digitalRead : Z → Z) (value : Z) (s : UP4.State) :
  0 ≤ value < 1024 → -1 ≤ UP4.prev_value s < 1024 →
  ∃ s', UP4.loop digitalRead value s = Some s' ∧
        Z.abs (value - UP4.prev_value s') ≤ UP4.DEADBAND ∧
        -1 ≤ UP4.prev_value s' < 1024.
Proof.
  intros Hv Hp.
  destruct (pedal_loop_dips digitalRead value s)
    as (ch&cs&cv&Hloop&_&_&_&Hrch&Hrcs&Hrcv).
  destruct (DoPedal_eq value
              (UP4.mkState cs ch cv (UP4.prev_value s) (UP4.trace s)))
    as (s'&Hs'&_&_&_&Hcase); try done.
  cbn [UP4.prev_value UP4.trace] in Hcase.
  exists s'. split; [by rewrite Hloop|].
  destruct (Z.leb_spec (Z.abs (value - UP4.prev_value s)) UP4.DEADBAND) as [Hd|Hd].
  - destruct Hcase as [_ ->]. lia.
  - destruct Hcase as (number&v&_&_&_&_&->). unfold UP4.DEADBAND. lia.
Qed.

Lemma pedal_reference_tracks_reading_witness :
  ∃ s', UP4.loop (buttons_down []) 5 UP4.power_on = Some s' ∧
        Z.abs (5 - UP4.prev_value s') ≤ UP4.DEADBAND ∧
        -1 ≤ UP4.prev_value s' < 1024.
Proof.
  apply (pedal_reference_tracks_reading (buttons_down []) 5 UP4.power_on).
  - lia.
  - simpl. lia.
Defined.
